(** * ubattery-backend: authentication blueprint and vehicle model

    A shallow embedding of [ubattery/blueprints/auth.py] and
    [ubattery/models/vehicle.py].

    The Flask globals the views read and write ([session], [g.user], the
    module-level [user_cache], the connection returned by [get_db()]) are
    the fields of one [world] record threaded through a small
    state-and-exception monad.  [abort(403)] and Python exceptions are
    outcomes that end a view early, leaving the world as it was when they
    were raised. *)

From stdpp Require Import gmap strings list.
From Stdlib Require Import ZArith Lia Ascii String.

Open Scope string_scope.

(** ** Local time and [strftime('%Y-%m-%d %H:%M:%S')] *)

Module Clock.

(** The fields of a Python [datetime] that the format string reads. *)
Record datetime := DateTime {
  year : Z; month : Z; day : Z;
  hour : Z; minute : Z; second : Z
}.

(** What [datetime.now()] can return on a running server: a calendar
    date with a four-digit year and a time of day. *)
Definition plausible (d : datetime) : bool :=
  (1000 <=? year d)%Z && (year d <=? 9999)%Z &&
  (1 <=? month d)%Z && (month d <=? 12)%Z &&
  (1 <=? day d)%Z && (day d <=? 31)%Z &&
  (0 <=? hour d)%Z && (hour d <? 24)%Z &&
  (0 <=? minute d)%Z && (minute d <? 60)%Z &&
  (0 <=? second d)%Z && (second d <? 60)%Z.

Definition digit (n : Z) : ascii := ascii_of_N (48 + Z.to_N (n mod 10)).

Fixpoint decimal_aux (fuel : nat) (n : Z) (acc : string) : string :=
  match fuel with
  | O => acc
  | S fuel' =>
      let acc' := String (digit n) acc in
      if (n <? 10)%Z then acc' else decimal_aux fuel' (n / 10) acc'
  end.

(** [%Y]: the year in decimal, as the C library prints it. *)
Definition fmt_Y (n : Z) : string := decimal_aux (S (Z.to_nat n)) n "".

(** [%m], [%d], [%H], [%M], [%S]: two digits, zero padded. *)
Definition fmt_02 (n : Z) : string :=
  if (n <? 10)%Z then String "0" (fmt_Y n) else fmt_Y n.

(** [d.strftime('%Y-%m-%d %H:%M:%S')] *)
Definition strftime (d : datetime) : string :=
  fmt_Y (year d) ++ "-" ++ fmt_02 (month d) ++ "-" ++ fmt_02 (day d)
  ++ " " ++ fmt_02 (hour d) ++ ":" ++ fmt_02 (minute d)
  ++ ":" ++ fmt_02 (second d).

Definition is_digit (c : ascii) : bool :=
  (48 <=? nat_of_ascii c)%nat && (nat_of_ascii c <=? 57)%nat.

(** [shape pat s]: [s] has the length of [pat], a digit wherever [pat]
    has a letter and the same character as [pat] elsewhere. *)
Definition is_letter (c : ascii) : bool :=
  (65 <=? nat_of_ascii c)%nat && (nat_of_ascii c <=? 90)%nat.

Fixpoint shape (pat s : string) : bool :=
  match pat, s with
  | EmptyString, EmptyString => true
  | String p pat', String c s' =>
      (if is_letter p then is_digit c else Ascii.eqb p c) && shape pat' s'
  | _, _ => false
  end.


Definition four_digits (s : string) : bool := shape "YYYY" s.
Definition two_digits (s : string) : bool := shape "DD" s.

End Clock.

Export Clock.

(** ** The [users] table and the statements the blueprint executes *)

Module Users.

(** Modelled from the spec: the [users] table is declared outside src/.
    Section 6 lists the columns the blueprint refers to (password hash,
    id, user_name, user_type, avatar_name, last_login_time, user_status,
    login_count); they are the columns the statements of [auth.py] name.
    A user who has never logged in has no [last_login_time]. *)
Record row := Row {
  password : string;
  id : Z;
  user_name : string;
  user_type : Z;
  avatar_name : string;
  last_login_time : option string;
  user_status : Z;
  login_count : Z
}.

(** The tuple [cursor.fetchone()] returns for the seven-column SELECT of
    [login]; the field order is the index order of [user_info[i]]. *)
Record user_info := UserInfo {
  ui_password : string;          (* user_info[0] *)
  ui_id : Z;                     (* user_info[1] *)
  ui_user_name : string;         (* user_info[2] *)
  ui_user_type : Z;              (* user_info[3] *)
  ui_avatar_name : string;       (* user_info[4] *)
  ui_last_login_time : option string;  (* user_info[5] *)
  ui_user_status : Z             (* user_info[6] *)
}.

(** A DATETIME value is kept as its text [YYYY-MM-DD HH:MM:SS]: the form
    in which the UPDATE sends it and in which
    [DATE_FORMAT(_, '%Y-%m-%d %H:%i:%s')] returns it. *)
Definition DATE_FORMAT (t : option string) : option string := t.

Definition project_info (r : row) : user_info :=
  {| ui_password := password r;
     ui_id := id r;
     ui_user_name := user_name r;
     ui_user_type := user_type r;
     ui_avatar_name := avatar_name r;
     ui_last_login_time := DATE_FORMAT (last_login_time r);
     ui_user_status := user_status r |}.

Definition project_name_type (r : row) : string * Z :=
  (user_name r, user_type r).

(** The statements of [auth.py], with their parameters. *)
Inductive stmt :=
| SelectUserInfo (name : string)
| SelectNameType (name : string)
| UpdateLogin (now name : string)
| Commit.

Section Sql.
(** [user_name = %s] as the column's collation decides it. *)
Variable sql_eq : string -> string -> bool.

(** [... FROM users WHERE user_name = %s LIMIT 1] *)
Definition where_user_name (name : string) (t : list row) : option row :=
  List.find (fun r => sql_eq (user_name r) name) t.

(** [SET last_login_time = %s, login_count = login_count + 1] *)
Definition set_login (now : string) (r : row) : row :=
  {| password := password r;
     id := id r;
     user_name := user_name r;
     user_type := user_type r;
     avatar_name := avatar_name r;
     last_login_time := Some now;
     user_status := user_status r;
     login_count := (login_count r + 1)%Z |}.

(** [UPDATE users SET ... WHERE user_name = %s] *)
Definition update_login (now name : string) (t : list row) : list row :=
  List.map (fun r => if sql_eq (user_name r) name then set_login now r else r) t.
End Sql.

End Users.

Export Users.

(** ** Requests, responses and the world a view runs in *)

Module Flask.

Inductive http_method := GET | POST.

(** The parts of [flask.request] the views read.  [get_json] is the
    parsed body: [None] when there is none, otherwise the object's
    string members. *)
Record request := Request {
  method : http_method;
  get_json : option (gmap string string)
}.

(** The value under ['data'] in a JSON reply. *)
Inductive json :=
| JNull
| JStr (s : string)
| JUser (userName : string) (userType : Z) (avatarName : string)
        (lastLoginTime : option string).

Inductive response :=
| Jsonify (status : bool) (data : json)
| SendFile (content : string).

Inductive exn :=
| KeyError (key : string)
| TypeError.

(** How a call ends: with a value, with [abort(code)], or with an
    uncaught exception. *)
Inductive outcome (A : Type) :=
| Return (a : A)
| Abort (code : nat)
| Raise (e : exn).
Arguments Return {A} a.
Arguments Abort {A} code.
Arguments Raise {A} e.

Record world := World {
  users : list row;               (* [users] as the connection sees it *)
  users_committed : list row;     (* [users] as last committed *)
  queries : list stmt;            (* statements executed, oldest first *)
  session : gmap string string;   (* [flask.session] *)
  user_cache : gmap string (string * Z);
  g_user : option (string * Z)    (* [g.user] *)
}.

Definition M (A : Type) : Type := world -> outcome A * world.

Definition ret {A} (a : A) : M A := fun w => (Return a, w).

Definition bind {A B} (m : M A) (k : A -> M B) : M B :=
  fun w =>
    match m w with
    | (Return a, w') => k a w'
    | (Abort c, w') => (Abort c, w')
    | (Raise e, w') => (Raise e, w')
    end.

Definition abort {A} (code : nat) : M A := fun w => (Abort code, w).
Definition raise {A} (e : exn) : M A := fun w => (Raise e, w).

End Flask.

Export Flask.

Declare Scope view_scope.
Delimit Scope view_scope with view.
Notation "x <- m ;; k" := (bind m (fun x => k))
  (at level 100, m at next level, right associativity) : view_scope.
Notation "m ;; k" := (bind m (fun _ => k))
  (at level 100, right associativity) : view_scope.
Open Scope view_scope.

(** What the blueprint takes from the application around it. *)
Class Platform := {
  (** [werkzeug.security.check_password_hash(pwhash, password)] *)
  check_password_hash : string -> string -> bool;
  (** the comparison [users.user_name = %s] performs *)
  collation : string -> string -> bool;
  (** [current_app.instance_path] and [current_app.config] *)
  instance_path : string;
  config : gmap string string;
  (** the files [send_from_directory] can serve, by directory and name *)
  files : string -> string -> option string
}.

(** ** [ubattery/blueprints/auth.py] *)

Module Auth.
Section Views.
Context {P : Platform}.

(** *** Reads and writes of the Flask globals *)

Definition session_get (key : string) : M (option string) :=
  fun w => (Return (session w !! key), w).

Definition session_clear : M unit :=
  fun w => (Return tt,
            {| users := users w; users_committed := users_committed w;
               queries := queries w; session := ∅;
               user_cache := user_cache w; g_user := g_user w |}).

Definition session_set (key value : string) : M unit :=
  fun w => (Return tt,
            {| users := users w; users_committed := users_committed w;
               queries := queries w; session := <[key := value]> (session w);
               user_cache := user_cache w; g_user := g_user w |}).

Definition get_g_user : M (option (string * Z)) :=
  fun w => (Return (g_user w), w).

Definition set_g_user (u : option (string * Z)) : M unit :=
  fun w => (Return tt,
            {| users := users w; users_committed := users_committed w;
               queries := queries w; session := session w;
               user_cache := user_cache w; g_user := u |}).

(** [user_cache.get(key)] and [user_cache.set(key, value)].  An entry
    leaves the cache only through [Cache.clear_entry] below, which stands
    for its expiry or eviction. *)
Definition user_cache_get (key : string) : M (option (string * Z)) :=
  fun w => (Return (user_cache w !! key), w).

Definition user_cache_set (key : string) (value : string * Z) : M unit :=
  fun w => (Return tt,
            {| users := users w; users_committed := users_committed w;
               queries := queries w; session := session w;
               user_cache := <[key := value]> (user_cache w);
               g_user := g_user w |}).

(** *** The cursor *)

(** Modelled from the spec: [get_db] ([ubattery/db.py]) is not under src/.
    Section 4.1 has it return the request's live connection, on which
    statements run in the order issued (section 5).  Executing [q] appends
    it to [queries] and leaves [t] as the table the connection sees. *)
Definition logged (q : stmt) (t : list row) (w : world) : world :=
  {| users := t; users_committed := users_committed w;
     queries := queries w ++ [q]; session := session w;
     user_cache := user_cache w; g_user := g_user w |}.

(** The row [... FROM users WHERE user_name = %s LIMIT 1] reads. *)
Definition select_row (name : string) (w : world) : option row :=
  where_user_name collation name (users w).

(** [cursor.execute('SELECT user_name, user_type FROM users WHERE
    user_name = %s LIMIT 1', (user_name,))] then [cursor.fetchone()] *)
Definition fetch_name_type (name : string) : M (option (string * Z)) :=
  fun w =>
    (Return (option_map project_name_type (select_row name w)),
     logged (SelectNameType name) (users w) w).

(** The seven-column SELECT of [login], then [cursor.fetchone()]. *)
Definition fetch_user_info (name : string) : M (option user_info) :=
  fun w =>
    (Return (option_map project_info (select_row name w)),
     logged (SelectUserInfo name) (users w) w).

(** [cursor.execute('UPDATE users SET last_login_time = %s,
    login_count = login_count + 1 WHERE user_name = %s',
    (now, user_name))] *)
Definition execute_update (now name : string) : M unit :=
  fun w =>
    (Return tt,
     logged (UpdateLogin now name)
       (update_login collation now name (users w)) w).

(** [db.commit()] *)
Definition commit : M unit :=
  fun w =>
    (Return tt,
     {| users := users w; users_committed := users w;
        queries := queries w ++ [Commit]; session := session w;
        user_cache := user_cache w; g_user := g_user w |}).

(** *** Python idioms *)

(** [data[key]] on the value of [request.get_json()] *)
Definition subscript (data : option (gmap string string)) (key : string)
  : M string :=
  match data with
  | None => raise TypeError
  | Some d =>
      match d !! key with
      | Some v => ret v
      | None => raise (KeyError key)
      end
  end.

(** [if error:] on a value that is [None] or a string *)
Definition truthy (error : option string) : bool :=
  match error with
  | None => false
  | Some s => negb (String.eqb s "")
  end.

Definition json_of (error : option string) : json :=
  match error with
  | None => JNull
  | Some s => JStr s
  end.

(** [os.path.join(a, b)] on POSIX *)
Definition startswith_sep (s : string) : bool :=
  match s with
  | String c _ => Ascii.eqb c "/"
  | EmptyString => false
  end.

Fixpoint endswith_sep (s : string) : bool :=
  match s with
  | EmptyString => false
  | String c EmptyString => Ascii.eqb c "/"
  | String _ s' => endswith_sep s'
  end.

Definition os_path_join (a b : string) : string :=
  if startswith_sep b then b
  else if String.eqb a "" || endswith_sep a then a ++ b
  else a ++ "/" ++ b.

(** [send_from_directory(directory, filename)]: the file, or NotFound *)
Definition send_from_directory (directory filename : string) : M response :=
  match files directory filename with
  | Some content => ret (SendFile content)
  | None => abort 404
  end.

(** *** The guards *)

Definition login_required {K : Type} (view : K -> M response)
  : K -> M response :=
  fun kwargs =>
    user <- get_g_user ;;
    (match user with
     | None => abort 403
     | Some _ => ret tt
     end) ;;
    view kwargs.

Definition super_user_required {K : Type} (view : K -> M response)
  : K -> M response :=
  fun kwargs =>
    user <- get_g_user ;;
    (match user with
     | None => abort 403
     | Some _ => ret tt
     end) ;;
    user <- get_g_user ;;
    user_type <- (match user with
                  | Some u => ret (snd u)
                  | None => raise TypeError
                  end) ;;
    (if negb (user_type =? 1)%Z then abort 403 else ret tt) ;;
    view kwargs.

(** *** [load_logged_in_user], run before every request *)

Definition load_logged_in_user : M unit :=
  user_name <- session_get "user_name" ;;
  match user_name with
  | None => set_g_user None
  | Some user_name =>
      cached <- user_cache_get user_name ;;
      set_g_user cached ;;
      user <- get_g_user ;;
      match user with
      | Some _ => ret tt
      | None =>
          fetched <- fetch_name_type user_name ;;
          set_g_user fetched ;;
          user <- get_g_user ;;
          match user with
          | Some u => user_cache_set user_name u
          | None => ret tt
          end
      end
  end.

(** The world a view starts in: the one the hook leaves. *)
Definition before_request (w : world) : world :=
  snd (load_logged_in_user w).

(** *** [login] *)

Definition MSG_COOKIE : string := "cookie 获取失败！".
Definition MSG_CREDENTIALS : string := "帐号或密码错误！".
Definition MSG_BANNED : string := "该用户已被禁止登录！".

(** The tail of [login] shared by both branches: from [session.clear()]
    to the final [jsonify]. *)
Definition login_tail (user_info : option user_info) : M response :=
  session_clear ;;
  ui <- (match user_info with
         | Some ui => ret ui
         | None => raise TypeError
         end) ;;
  session_set "user_name" (ui_user_name ui) ;;
  ret (Jsonify true
         (JUser (ui_user_name ui) (ui_user_type ui) (ui_avatar_name ui)
                (ui_last_login_time ui))).

Definition login (clock : datetime) (request : request) : M response :=
  let now := strftime clock in
  match method request with
  | GET =>
      user_name <- session_get "user_name" ;;
      match user_name with
      | None => ret (Jsonify false JNull)
      | Some user_name =>
          user_info <- fetch_user_info user_name ;;
          let error :=
            match user_info with
            | None => Some MSG_COOKIE
            | Some ui =>
                if (ui_user_status ui =? 0)%Z then Some MSG_BANNED else None
            end in
          if truthy error then ret (Jsonify false (json_of error))
          else login_tail user_info
      end
  | POST =>
      let data := get_json request in
      user_name <- subscript data "userName" ;;
      user_info <- fetch_user_info user_name ;;
      error <- (match user_info with
                | None => ret (Some MSG_CREDENTIALS)
                | Some ui =>
                    submitted <- subscript data "password" ;;
                    if negb (check_password_hash (ui_password ui) submitted)
                    then ret (Some MSG_CREDENTIALS)
                    else if (ui_user_status ui =? 0)%Z
                         then ret (Some MSG_BANNED)
                         else ret None
                end) ;;
      if truthy error then ret (Jsonify false (json_of error))
      else
        execute_update now user_name ;;
        commit ;;
        login_tail user_info
  end.

(** *** [logout] and [get_avatar] *)

Definition logout : unit -> M response :=
  login_required (fun _ =>
    session_clear ;;
    ret (Jsonify true JNull)).

Definition get_avatar : string -> M response :=
  login_required (fun filename =>
    avatar_path <- (match config !! "AVATAR_PATH" with
                    | Some p => ret p
                    | None => raise (KeyError "AVATAR_PATH")
                    end) ;;
    let base_dir := os_path_join instance_path avatar_path in
    send_from_directory base_dir filename).

(** [w'] has the [users] table of [w], as seen and as committed. *)
Definition same_users (w w' : world) : Prop :=
  users w' = users w /\ users_committed w' = users_committed w.

(** *** One request through the blueprint *)

Inductive endpoint :=
| ep_login
| ep_logout
| ep_get_avatar (filename : string).

(** [load_logged_in_user] first, then the view the URL names.  [/login]
    accepts GET and POST; the other two routes accept GET only and
    answer 405 otherwise. *)
Definition serve (clock : datetime) (e : endpoint) (request : request)
  : M response :=
  load_logged_in_user ;;
  match e, method request with
  | ep_login, _ => login clock request
  | ep_logout, GET => logout tt
  | ep_get_avatar filename, GET => get_avatar filename
  | _, POST => abort 405
  end.

End Views.
End Auth.

Export Auth.

(** The environment's side of the user cache: an entry expires or is
    evicted. *)
Module Cache.
Definition clear_entry (key : string) (w : world) : world :=
  {| users := users w; users_committed := users_committed w;
     queries := queries w; session := session w;
     user_cache := delete key (user_cache w); g_user := g_user w |}.
End Cache.

(** ** [ubattery/models/vehicle.py] *)

Module Vehicle.

(** [sqlalchemy.dialects.mysql] column types, as the model names them. *)
Inductive mysql_type :=
| INTEGER
| VARCHAR (length : nat)
| DATETIME
| DECIMAL (precision scale : nat).

(** One [mysql.Column(type, primary_key=..., index=..., comment=...)];
    the two flags default to [False]. *)
Record Column := Col {
  name : string;
  type_ : mysql_type;
  primary_key : bool;
  index : bool;
  comment : option string
}.

Definition column (name : string) (type_ : mysql_type) (comment : string)
  : Column :=
  Col name type_ false false (Some comment).

Definition __tablename__ : string := "yutong_vehicle1".

(** The class attributes of [Vehicle], in declaration order. *)
Definition columns : list Column :=
  [ Col "id" INTEGER true false None;
    column "province" (VARCHAR 100) "省";
    column "city" (VARCHAR 100) "城市";
    Col "timestamp" DATETIME false true (Some "CST 时间");
    column "bty_t_vol" (DECIMAL 10 2) "电池总电压";
    column "bty_t_curr" (DECIMAL 10 2) "电池总电流";
    column "battery_soc" (DECIMAL 5 2) "SOC";
    column "s_b_max_t" INTEGER "电池最高温度";
    column "max_t_s_b_num" INTEGER "最高温度电池号";
    column "s_b_min_t" INTEGER "电池最低温度";
    column "min_t_s_b_num" INTEGER "最低温度电池号";
    column "s_b_max_v" (DECIMAL 10 6) "电池最高电压";
    column "max_v_e_core_num" INTEGER "最高电压电芯号";
    column "s_b_min_v" (DECIMAL 10 6) "电池最低电压";
    column "min_v_e_core_num" INTEGER "最低电压电芯号";
    column "p_t_p" (DECIMAL 10 2) "正向累计电量";
    column "r_t_p" (DECIMAL 10 2) "反向累计电量";
    column "total_mileage" INTEGER "总里程";
    column "bty_sys_rated_capacity" INTEGER "额定容量";
    column "bty_sys_rated_consumption" INTEGER "额定能量";
    column "met_spd" INTEGER "车速";
    column "byt_ma_sys_state" INTEGER "充电状态，6 代表充电中" ].

Definition find_column (n : string) : option Column :=
  List.find (fun c => String.eqb (name c) n) columns.

Definition type_of (n : string) : option mysql_type :=
  option_map type_ (find_column n).

Definition indexed (n : string) : option bool :=
  option_map index (find_column n).

End Vehicle.

(** ** A concrete application, for running the model *)

Module Fixture.

Definition lower (c : ascii) : ascii :=
  let n := nat_of_ascii c in
  if (65 <=? n)%nat && (n <=? 90)%nat then ascii_of_nat (n + 32) else c.

(** A case-insensitive comparison, as MySQL's default collations do on
    ASCII letters. *)
Fixpoint ci_eqb (a b : string) : bool :=
  match a, b with
  | EmptyString, EmptyString => true
  | String x a', String y b' => Ascii.eqb (lower x) (lower y) && ci_eqb a' b'
  | _, _ => false
  end.

Definition app : Platform := {|
  check_password_hash := fun pwhash pw => String.eqb pwhash ("plain$" ++ pw);
  collation := ci_eqb;
  instance_path := "/srv/instance";
  config := {[ "AVATAR_PATH" := "media/avatars" ]};
  files := fun directory filename =>
    if String.eqb directory "/srv/instance/media/avatars"
       && String.eqb filename "alice.png"
    then Some "PNG" else None
|}.

Definition alice : row :=
  Row "plain$wonderland" 1 "alice" 1 "alice.png"
      (Some "2019-03-01 08:30:00") 1 41.

Definition bob : row :=
  Row "plain$builder" 2 "bob" 0 "bob.png" None 0 0.

Definition carol : row :=
  Row "plain$singer" 3 "carol" 0 "carol.png"
      (Some "2019-02-11 17:05:09") 1 7.

Definition table : list row := [alice; bob; carol].

Definition fresh : world :=
  {| users := table; users_committed := table; queries := [];
     session := ∅; user_cache := ∅; g_user := None |}.

Definition noon : datetime := DateTime 2019 7 4 12 0 9.

Definition credentials (user pw : string) : request :=
  Request POST (Some (<["userName" := user]> {[ "password" := pw ]})).

Definition plain_get : request := Request GET None.

(** The world after [user] has logged in at [noon]. *)
Definition logged_in (user pw : string) : world :=
  snd (serve (P := app) noon ep_login (credentials user pw) fresh).

End Fixture.


(** ** [ubattery/blueprints/index.py]: the static routes *)

Module Index.

(** [current_app.template_folder] and [current_app.avatar_folder]. *)
Class Site := {
  template_folder : string;
  avatar_folder : string
}.

Section Views.
Context {P : Platform} {S : Site}.

Definition favicon : unit -> M response :=
  fun _ => send_from_directory template_folder "favicon.ico".

Definition get_avatar : string -> M response :=
  fun filename => send_from_directory avatar_folder filename.

Inductive endpoint :=
| ep_favicon
| ep_get_avatar (filename : string).

(** [load_logged_in_user] is registered with [before_app_request], so it
    runs before these views too; both routes accept GET only. *)
Definition serve (e : endpoint) (request : request) : M response :=
  load_logged_in_user ;;
  match e, method request with
  | ep_favicon, GET => favicon tt
  | ep_get_avatar filename, GET => get_avatar filename
  | _, POST => abort 405
  end.

End Views.
End Index.

(** ** Sequences of requests, and what the properties compare *)

Module Scenario.

(** The same POST /login sent once per clock reading, in order. *)
Definition login_each {P : Platform} (clocks : list datetime)
    (request : request) (w : world) : world :=
  List.fold_left (fun w clock => snd (serve clock ep_login request w)) clocks w.

(** The world with another [users] table behind it: rows changed, added
    or deleted by someone else and committed. *)
Definition with_users (t : list row) (w : world) : world :=
  {| users := t; users_committed := t; queries := queries w;
     session := session w; user_cache := user_cache w; g_user := g_user w |}.

(** A collation is reflexive and transitive on the names it compares. *)
Definition collation_refl {P : Platform} : Prop :=
  forall a, collation a a = true.

Definition collation_trans {P : Platform} : Prop :=
  forall a b c, collation a b = true -> collation b c = true ->
                collation a c = true.

(** What a request may do to a row: leave it, or stamp a login on it. *)
Definition row_kept (r r' : row) : Prop :=
  password r' = password r /\ id r' = id r /\ user_name r' = user_name r
  /\ user_type r' = user_type r /\ avatar_name r' = avatar_name r
  /\ user_status r' = user_status r
  /\ (login_count r <= login_count r' <= login_count r + 1)%Z.

(** The number a string of decimal digits spells. *)
Definition digit_value (c : ascii) : Z := Z.of_N (N_of_ascii c) - 48.

Fixpoint number_from (acc : Z) (s : string) : Z :=
  match s with
  | EmptyString => acc
  | String c s' => number_from (10 * acc + digit_value c) s'
  end.

Definition number_of (s : string) : Z := number_from 0 s.

(** The files of [Fixture.app] with a public avatar folder over the same
    directory. *)
Definition site : Index.Site := {|
  Index.template_folder := "/srv/app/templates";
  Index.avatar_folder := "/srv/instance/media/avatars"
|}.

Definition late : datetime := DateTime 2019 7 5 6 45 30.

(** [Fixture.fresh] with a session cookie naming the disabled [bob]. *)
Definition bob_cookie : world :=
  {| users := Fixture.table; users_committed := Fixture.table; queries := [];
     session := {[ "user_name" := "bob" ]}; user_cache := ∅; g_user := None |}.

(** [alice] cached as a super user, her cookie in the session. *)
Definition alice_cached : world :=
  {| users := Fixture.table; users_committed := Fixture.table; queries := [];
     session := {[ "user_name" := "alice" ]};
     user_cache := {[ "alice" := ("alice", 1%Z) ]}; g_user := None |}.

End Scenario.

(** ** Proof steps shared by the properties *)

(** Unfold a view down to the reads and writes of the world. *)
Ltac run_views :=
  unfold serve, login, logout, get_avatar, login_required,
    super_user_required, before_request, load_logged_in_user, login_tail,
    send_from_directory, subscript, fetch_user_info, fetch_name_type,
    execute_update, commit, session_get, session_set, session_clear,
    user_cache_get, user_cache_set, get_g_user, set_g_user,
    select_row, logged, bind, ret, abort, raise in *;
  simpl in *.

(** Split on whatever the goal still branches on. *)
Ltac split_cases :=
  repeat (simpl;
          match goal with
          | |- context [match ?x with _ => _ end] =>
              lazymatch x with
              | context [match _ with _ => _ end] => fail
              | _ => destruct x eqn:?
              end
          end);
  simpl.

(** * Properties *)

(** ** The timestamp format *)

Module ClockFacts.


Lemma fmt_Y_four_digits (y : Z) :
  (1000 <= y <= 9999)%Z -> four_digits (fmt_Y y) = true.
Proof.
  assert (Hall : forallb (fun y => four_digits (fmt_Y y)) (seqZ 1000 9000) = true)
    by (vm_compute; reflexivity).
  intros Hy. rewrite forallb_forall in Hall. apply Hall.
  apply list_elem_of_In, elem_of_seqZ. lia.
Qed.

Lemma fmt_02_two_digits (n : Z) :
  (0 <= n < 100)%Z -> two_digits (fmt_02 n) = true.
Proof.
  assert (Hall : forallb (fun n => two_digits (fmt_02 n)) (seqZ 0 100) = true)
    by (vm_compute; reflexivity).
  intros Hn. rewrite forallb_forall in Hall. apply Hall.
  apply list_elem_of_In, elem_of_seqZ. lia.
Qed.



End ClockFacts.

(** ** The two statements on [users] *)

Module UsersFacts.
Section Sql.
Variable sql_eq : string -> string -> bool.

Lemma where_user_name_matches (name : string) (t : list row) (u : row) :
  where_user_name sql_eq name t = Some u ->
  In u t /\ sql_eq (user_name u) name = true.
Proof. unfold where_user_name. apply find_some. Qed.

(** The UPDATE rewrites the row the SELECT returned, and that row is
    still the one a SELECT by the same name returns. *)
Lemma where_user_name_update (now name : string) (t : list row) (u : row) :
  where_user_name sql_eq name t = Some u ->
  where_user_name sql_eq name (update_login sql_eq now name t)
  = Some (set_login now u).
Proof.
  unfold where_user_name, update_login.
  induction t as [|r t IH]; simpl; [discriminate|].
  destruct (sql_eq (user_name r) name) eqn:Hr; simpl.
  - rewrite Hr. congruence.
  - rewrite Hr. exact IH.
Qed.

Lemma update_login_lookup (now name : string) (t : list row) (i : nat) :
  update_login sql_eq now name t !! i
  = (fun r => if sql_eq (user_name r) name then set_login now r else r)
      <$> (t !! i).
Proof.
  unfold update_login. revert i.
  induction t as [|r t IH]; intros [|i]; simpl; auto.
Qed.

Lemma update_login_length (now name : string) (t : list row) :
  List.length (update_login sql_eq now name t) = List.length t.
Proof. unfold update_login. apply length_map. Qed.

End Sql.
End UsersFacts.

(** ** The views *)



(** C2: for a row with [user_status = 0], no POST /login naming it sets
    a session claim or returns [status: true], whatever password the body
    carries; with a password [check_password_hash] accepts the reply is
    [status: false] with the banned-account message.  The GET branch
    refuses the same row in the same way. *)
Theorem login_disabled_refused {P : Platform}
    (clock : datetime) (w : world) (data : gmap string string)
    (name : string) (u : row) :
  data !! "userName" = Some name ->
  select_row name w = Some u ->
  user_status u = 0%Z ->
  let result := login clock (Request POST (Some data)) w in
  session (snd result) = session w
  /\ (forall d, fst result <> Return (Jsonify true d))
  /\ (forall pw, data !! "password" = Some pw ->
        check_password_hash (password u) pw = true ->
        fst result = Return (Jsonify false (JStr MSG_BANNED)))
  /\ (forall body, session w !! "user_name" = Some name ->
        let read := login clock (Request GET body) w in
        fst read = Return (Jsonify false (JStr MSG_BANNED))
        /\ session (snd read) = session w).
Proof.
  intros Hname Hsel Hst result. subst result. run_views.
  rewrite Hname, Hsel. simpl. rewrite Hst. simpl.
  split; [|split; [|split]].
  - destruct (data !! "password") as [pw|]; simpl; [|reflexivity].
    destruct (check_password_hash (password u) pw); reflexivity.
  - intros d. destruct (data !! "password") as [pw|]; simpl; [|discriminate].
    destruct (check_password_hash (password u) pw); discriminate.
  - intros pw Hpw Hck. rewrite Hpw. simpl. rewrite Hck. reflexivity.
  - intros body Hclaim. rewrite Hclaim. simpl. rewrite Hsel. simpl.
    rewrite Hst. simpl. split; reflexivity.
Qed.

Lemma login_disabled_refused_witness :
  let result :=
    login (P := Fixture.app) Fixture.noon
      (Request POST (Some (<["userName" := "bob"]> {[ "password" := "builder" ]})))
      Fixture.fresh in
  fst result = Return (Jsonify false (JStr MSG_BANNED))
  /\ session (snd result) = ∅.
Proof.
  pose proof (login_disabled_refused (P := Fixture.app) Fixture.noon
                Fixture.fresh
                (<["userName" := "bob"]> {[ "password" := "builder" ]})
                "bob" Fixture.bob eq_refl eq_refl eq_refl)
    as (Hsess & _ & Hmsg & _).
  cbv zeta. split.
  - exact (Hmsg "builder" eq_refl eq_refl).
  - exact Hsess.
Defined.

(** C3: a POST /login whose user name selects no row, and one whose
    password [check_password_hash] rejects, end alike: the same
    [status: false] reply with the generic message, after the same single
    SELECT and nothing else. *)
Theorem login_generic_failure {P : Platform}
    (clock : datetime) (w : world) (data : gmap string string)
    (name : string) :
  data !! "userName" = Some name ->
  select_row name w = None
  \/ (exists u pw, select_row name w = Some u
                   /\ data !! "password" = Some pw
                   /\ check_password_hash (password u) pw = false) ->
  login clock (Request POST (Some data)) w
  = (Return (Jsonify false (JStr MSG_CREDENTIALS)),
     logged (SelectUserInfo name) (users w) w).
Proof.
  intros Hname [Hnone | (u & pw & Hsel & Hpw & Hck)]; run_views.
  - rewrite Hname, Hnone. reflexivity.
  - rewrite Hname, Hsel. simpl. rewrite Hpw. simpl. rewrite Hck. reflexivity.
Qed.

Lemma login_generic_failure_witness :
  fst (login (P := Fixture.app) Fixture.noon
         (Request POST (Some (<["userName" := "dave"]> {[ "password" := "x" ]})))
         Fixture.fresh)
  = Return (Jsonify false (JStr MSG_CREDENTIALS))
  /\ fst (login (P := Fixture.app) Fixture.noon
            (Request POST (Some (<["userName" := "carol"]> {[ "password" := "x" ]})))
            Fixture.fresh)
     = Return (Jsonify false (JStr MSG_CREDENTIALS)).
Proof.
  pose proof (login_generic_failure (P := Fixture.app) Fixture.noon
                Fixture.fresh
                (<["userName" := "dave"]> {[ "password" := "x" ]}) "dave"
                eq_refl (or_introl eq_refl)) as Hunknown.
  pose proof (login_generic_failure (P := Fixture.app) Fixture.noon
                Fixture.fresh
                (<["userName" := "carol"]> {[ "password" := "x" ]}) "carol"
                eq_refl
                (or_intror
                   (ex_intro _ Fixture.carol
                      (ex_intro _ "x"
                         (conj eq_refl (conj eq_refl eq_refl))))))
    as Hwrong.
  split.
  - exact (f_equal fst Hunknown).
  - exact (f_equal fst Hwrong).
Defined.

(** C9: on a row with [user_status = 0], a password that
    [check_password_hash] rejects gets the generic message, which is not
    the banned-account message; the password is compared first, so a POST
    /login naming that row answers with the banned-account message only
    for a password that passes the comparison. *)
Theorem login_disabled_wrong_password {P : Platform}
    (clock : datetime) (w : world) (data : gmap string string)
    (name pw : string) (u : row) :
  data !! "userName" = Some name ->
  data !! "password" = Some pw ->
  select_row name w = Some u ->
  user_status u = 0%Z ->
  check_password_hash (password u) pw = false ->
  fst (login clock (Request POST (Some data)) w)
  = Return (Jsonify false (JStr MSG_CREDENTIALS))
  /\ MSG_CREDENTIALS <> MSG_BANNED
  /\ (forall data' pw',
        data' !! "userName" = Some name ->
        data' !! "password" = Some pw' ->
        fst (login clock (Request POST (Some data')) w)
        = Return (Jsonify false (JStr MSG_BANNED)) ->
        check_password_hash (password u) pw' = true).
Proof.
  intros Hname Hpw Hsel Hst Hck. split; [|split].
  - run_views. rewrite Hname, Hsel. simpl. rewrite Hpw. simpl.
    rewrite Hck. reflexivity.
  - discriminate.
  - intros data' pw' Hname' Hpw'. run_views.
    rewrite Hname', Hsel. simpl. rewrite Hpw'. simpl.
    destruct (check_password_hash (password u) pw'); simpl; [reflexivity|].
    discriminate.
Qed.

Lemma login_disabled_wrong_password_witness :
  fst (login (P := Fixture.app) Fixture.noon
         (Request POST (Some (<["userName" := "bob"]> {[ "password" := "guess" ]})))
         Fixture.fresh)
  = Return (Jsonify false (JStr MSG_CREDENTIALS)).
Proof.
  exact (proj1 (login_disabled_wrong_password (P := Fixture.app) Fixture.noon
                  Fixture.fresh
                  (<["userName" := "bob"]> {[ "password" := "guess" ]})
                  "bob" "guess" Fixture.bob
                  eq_refl eq_refl eq_refl eq_refl eq_refl)).
Defined.

(** C10: on a successful POST /login the reply's [lastLoginTime] is the
    row's [last_login_time] as the SELECT read it, before the UPDATE; the
    row afterwards holds the current time instead.  The [userName] of the
    reply and the session claim are the row's stored [user_name], which
    the collation matched with the submitted name. *)
Theorem login_reports_previous_login {P : Platform}
    (clock : datetime) (w : world) (data : gmap string string)
    (name pw : string) (u : row) :
  data !! "userName" = Some name ->
  data !! "password" = Some pw ->
  select_row name w = Some u ->
  user_status u <> 0%Z ->
  check_password_hash (password u) pw = true ->
  let result := login clock (Request POST (Some data)) w in
  (exists user_type avatar,
      fst result
      = Return (Jsonify true (JUser (user_name u) user_type avatar
                                (last_login_time u))))
  /\ session (snd result) !! "user_name" = Some (user_name u)
  /\ collation (user_name u) name = true
  /\ (exists u', select_row name (snd result) = Some u'
                 /\ last_login_time u' = Some (strftime clock)
                 /\ (last_login_time u <> Some (strftime clock) ->
                     last_login_time u <> last_login_time u')).
Proof.
  intros Hname Hpw Hsel Hst Hck result. subst result.
  pose proof (UsersFacts.where_user_name_matches _ _ _ _ Hsel) as [_ Hcol].
  pose proof (UsersFacts.where_user_name_update _ (strftime clock) _ _ _ Hsel)
    as Hupd.
  run_views. rewrite Hname, Hsel. simpl. rewrite Hpw. simpl. rewrite Hck. simpl.
  destruct (Z.eqb_spec (user_status u) 0) as [|_]; [contradiction|]. simpl.
  split; [eauto|]. split; [apply lookup_insert_eq|]. split; [exact Hcol|].
  exists (set_login (strftime clock) u). auto.
Qed.

Lemma login_reports_previous_login_witness :
  let result :=
    login (P := Fixture.app) Fixture.noon
      (Request POST (Some (<["userName" := "ALICE"]> {[ "password" := "wonderland" ]})))
      Fixture.fresh in
  session (snd result) !! "user_name" = Some "alice"
  /\ option_map last_login_time (users (snd result) !! 0%nat)
     = Some (Some "2019-07-04 12:00:09").
Proof.
  pose proof (login_reports_previous_login (P := Fixture.app) Fixture.noon
                Fixture.fresh
                (<["userName" := "ALICE"]> {[ "password" := "wonderland" ]})
                "ALICE" "wonderland" Fixture.alice
                eq_refl eq_refl eq_refl ltac:(discriminate) eq_refl)
    as (_ & Hsess & _).
  cbv zeta. split; [exact Hsess | reflexivity].
Defined.

(** ** The identity-loading hook *)

Module HookFacts.
Section Hook.
Context {P : Platform}.

Lemma hook_returns (w : world) : fst (load_logged_in_user w) = Return tt.
Proof.
  run_views. destruct (session w !! "user_name") as [n|]; simpl; auto.
  destruct (user_cache w !! n); simpl; auto.
  destruct (where_user_name collation n (users w)); reflexivity.
Qed.

(** The hook writes neither the session nor the table. *)
Lemma hook_frame (w : world) :
  session (before_request w) = session w
  /\ users (before_request w) = users w
  /\ users_committed (before_request w) = users_committed w.
Proof.
  run_views. destruct (session w !! "user_name") as [n|]; simpl; auto.
  destruct (user_cache w !! n); simpl; auto.
  destruct (where_user_name collation n (users w)); simpl; auto.
Qed.

Lemma hook_hit (w : world) (n : string) (u : string * Z) :
  session w !! "user_name" = Some n ->
  user_cache w !! n = Some u ->
  g_user (before_request w) = Some u
  /\ queries (before_request w) = queries w
  /\ user_cache (before_request w) = user_cache w.
Proof.
  intros Hs Hc. run_views. rewrite Hs. simpl. rewrite Hc. simpl. auto.
Qed.

Lemma hook_miss (w : world) (n : string) :
  session w !! "user_name" = Some n ->
  user_cache w !! n = None ->
  queries (before_request w) = (queries w ++ [SelectNameType n])%list
  /\ g_user (before_request w) = option_map project_name_type (select_row n w)
  /\ user_cache (before_request w)
     = match option_map project_name_type (select_row n w) with
       | Some u => <[n := u]> (user_cache w)
       | None => user_cache w
       end.
Proof.
  intros Hs Hc. run_views. rewrite Hs. simpl. rewrite Hc. simpl.
  destruct (where_user_name collation n (users w)); simpl; auto.
Qed.

(** While the entry stays in the cache, any number of requests leaves
    the statement log as it is. *)
Lemma hook_hit_iter (k : nat) (w : world) (n : string) (u : string * Z) :
  session w !! "user_name" = Some n ->
  user_cache w !! n = Some u ->
  session (Nat.iter k before_request w) = session w
  /\ user_cache (Nat.iter k before_request w) = user_cache w
  /\ users (Nat.iter k before_request w) = users w
  /\ queries (Nat.iter k before_request w) = queries w.
Proof.
  intros Hs Hc. induction k as [|k (IHs & IHc & IHu & IHq)]; simpl; auto.
  destruct (hook_frame (Nat.iter k before_request w)) as (Fs & Fu & _).
  destruct (hook_hit (Nat.iter k before_request w) n u) as (_ & Hq & Hc').
  { now rewrite IHs. }
  { now rewrite IHc. }
  repeat split; congruence.
Qed.

Lemma hook_session_iter (k : nat) (w : world) :
  session (Nat.iter k before_request w) = session w.
Proof.
  induction k as [|k IH]; simpl; auto.
  destruct (hook_frame (Nat.iter k before_request w)) as (Fs & _).
  congruence.
Qed.

End Hook.
End HookFacts.

(** C4: [load_logged_in_user] always returns.  Without a [user_name]
  claim it sets [g.user] to [None] and touches neither the database nor
  the cache.  With a claim it takes [g.user] from the cache when the
  entry is there, executing nothing; on a miss it executes exactly one
  SELECT of (user_name, user_type), and writes the row into the cache
  only when there is one.  So once the entry is cached, any number of
  further invocations executes nothing; starting from a miss on an
  existing user, any number of invocations executes one SELECT in all;
  and after the entry is cleared the next invocation executes exactly
  one. *)
Theorem load_logged_in_user_cache {P : Platform} (w : world) :
let w' := before_request w in
fst (load_logged_in_user w) = Return tt
/\ (session w !! "user_name" = None ->
    g_user w' = None /\ queries w' = queries w
    /\ user_cache w' = user_cache w)
/\ (forall n u,
      session w !! "user_name" = Some n -> user_cache w !! n = Some u ->
      g_user w' = Some u /\ queries w' = queries w
      /\ user_cache w' = user_cache w)
/\ (forall n,
      session w !! "user_name" = Some n -> user_cache w !! n = None ->
      queries w' = (queries w ++ [SelectNameType n])%list
      /\ g_user w' = option_map project_name_type (select_row n w)
      /\ user_cache w'
         = match option_map project_name_type (select_row n w) with
           | Some u => <[n := u]> (user_cache w)
           | None => user_cache w
           end)
/\ (forall n k,
      session w !! "user_name" = Some n -> is_Some (user_cache w !! n) ->
      queries (Nat.iter k before_request w) = queries w)
/\ (forall n k,
      session w !! "user_name" = Some n -> user_cache w !! n = None ->
      is_Some (select_row n w) ->
      queries (Nat.iter (S k) before_request w)
      = (queries w ++ [SelectNameType n])%list)
/\ (forall n k,
      session w !! "user_name" = Some n ->
      let cleared := Cache.clear_entry n (Nat.iter k before_request w) in
      queries (before_request cleared)
      = (queries cleared ++ [SelectNameType n])%list).
Proof.
intros w'. subst w'.
split; [apply HookFacts.hook_returns|].
split.
{ intros Hs. run_views. rewrite Hs. simpl. auto. }
split; [apply HookFacts.hook_hit|].
split; [apply HookFacts.hook_miss|].
split.
{ intros n k Hs [u Hc]. now apply (HookFacts.hook_hit_iter k w n u). }
split.
{ intros n k Hs Hc [r Hr].
  rewrite Nat.iter_succ_r.
  destruct (HookFacts.hook_miss w n Hs Hc) as (Hq & _ & Hcache).
  destruct (HookFacts.hook_frame w) as (Fs & _).
  rewrite Hr in Hcache. simpl in Hcache.
  destruct (HookFacts.hook_hit_iter k (before_request w) n
              (project_name_type r)) as (_ & _ & _ & Hk).
  - now rewrite Fs.
  - rewrite Hcache. apply lookup_insert_eq.
  - now rewrite Hk. }
intros n k Hs cleared.
apply HookFacts.hook_miss.
- subst cleared. simpl. now rewrite HookFacts.hook_session_iter.
- subst cleared. simpl. apply lookup_delete_eq.
Qed.

Lemma load_logged_in_user_cache_witness :
let w := Fixture.logged_in "alice" "wonderland" in
queries (Nat.iter 3 (before_request (P := Fixture.app)) w)
= (queries w ++ [SelectNameType "alice"])%list
/\ queries (before_request (P := Fixture.app)
             (Cache.clear_entry "alice"
                (Nat.iter 3 (before_request (P := Fixture.app)) w)))
   = (queries w ++ [SelectNameType "alice"; SelectNameType "alice"])%list.
Proof.
intros w.
destruct (load_logged_in_user_cache (P := Fixture.app) w)
  as (_ & _ & _ & _ & _ & Hone & Hclear).
pose proof (Hone "alice" 2%nat eq_refl eq_refl
              ltac:(eexists; vm_compute; reflexivity)) as H3.
pose proof (Hclear "alice" 3%nat eq_refl) as Hagain.
cbv zeta in Hagain. split.
- exact H3.
- rewrite Hagain.
  change (queries (Cache.clear_entry "alice"
            (Nat.iter 3 (before_request (P := Fixture.app)) w)))
    with (queries (Nat.iter 3 (before_request (P := Fixture.app)) w)).
  rewrite H3, <- app_assoc. reflexivity.
Defined.

(** ** The guards, and a request seen whole *)

Module ServeFacts.
Section Serve.
Context {P : Platform}.

(** The view runs in the world the hook leaves. *)
Lemma serve_after_hook (clock : datetime) (e : endpoint) (req : request)
    (w : world) :
  serve clock e req w
  = match e, method req with
    | ep_login, _ => login clock req
    | ep_logout, GET => logout tt
    | ep_get_avatar filename, GET => get_avatar filename
    | _, POST => abort 405
    end (before_request w).
Proof.
  pose proof (HookFacts.hook_returns w) as Hret.
  unfold serve, bind, before_request.
  destruct (load_logged_in_user w) as [o w1]. simpl in *. subst o.
  reflexivity.
Qed.

Lemma login_required_none {K : Type} (view : K -> M response) (kwargs : K)
    (w : world) :
  g_user w = None -> login_required view kwargs w = (Abort 403, w).
Proof. intros Hg. run_views. now rewrite Hg. Qed.

Lemma login_required_some {K : Type} (view : K -> M response) (kwargs : K)
    (w : world) (u : string * Z) :
  g_user w = Some u -> login_required view kwargs w = view kwargs w.
Proof. intros Hg. run_views. now rewrite Hg. Qed.

(** A world without a session claim: the hook leaves no user. *)
Lemma hook_anonymous (w : world) :
  session w !! "user_name" = None -> g_user (before_request w) = None.
Proof. intros Hs. run_views. now rewrite Hs. Qed.


Lemma logout_frame (w : world) : same_users w (snd (logout tt w)).
Proof. unfold same_users. run_views. split_cases; auto. Qed.

Lemma get_avatar_frame (filename : string) (w : world) :
  same_users w (snd (get_avatar filename w)).
Proof. unfold same_users. run_views. split_cases; auto. Qed.

End Serve.
End ServeFacts.

(** C5: with [g.user] empty, [login_required] answers 403 for any view
  and leaves the world untouched, so the view's body has not run; this
  holds for [logout] and [get_avatar].  With a user loaded, [logout]
  empties the session and returns [status: true] with null data, and
  after a /logout request that did so, the next GET of /logout or of an
  avatar is answered 403. *)
Theorem login_required_forbidden {P : Platform} {K : Type}
  (view : K -> M response) (kwargs : K) (w : world) :
g_user w = None ->
login_required view kwargs w = (Abort 403, w)
/\ logout tt w = (Abort 403, w)
/\ (forall filename, get_avatar filename w = (Abort 403, w))
/\ (forall w0 u, g_user w0 = Some u ->
      fst (logout tt w0) = Return (Jsonify true JNull)
      /\ session (snd (logout tt w0)) = ∅)
/\ (forall clock req w0,
      fst (serve clock ep_logout req w0) = Return (Jsonify true JNull) ->
      let w1 := snd (serve clock ep_logout req w0) in
      session w1 = ∅
      /\ forall clock' req' filename,
           method req' = GET ->
           fst (serve clock' ep_logout req' w1) = Abort 403
           /\ fst (serve clock' (ep_get_avatar filename) req' w1)
              = Abort 403).
Proof.
intros Hnone.
split; [now apply ServeFacts.login_required_none|].
split; [now apply ServeFacts.login_required_none|].
split; [intros f; now apply ServeFacts.login_required_none|].
split.
{ intros w0 u Hu. unfold logout.
  rewrite (ServeFacts.login_required_some _ _ _ u Hu).
  split; reflexivity. }
intros clock req w0 Hout w1.
assert (Hempty : session w1 = ∅).
{ subst w1. revert Hout. rewrite ServeFacts.serve_after_hook.
  destruct (method req); [|discriminate].
  destruct (g_user (before_request w0)) as [u|] eqn:Hu.
  - unfold logout. rewrite (ServeFacts.login_required_some _ _ _ u Hu).
    reflexivity.
  - unfold logout. rewrite (ServeFacts.login_required_none _ _ _ Hu).
    discriminate. }
split; [exact Hempty|].
intros clock' req' f Hget.
assert (Hanon : g_user (before_request w1) = None).
{ apply ServeFacts.hook_anonymous. rewrite Hempty. apply lookup_empty. }
rewrite !ServeFacts.serve_after_hook, Hget.
unfold logout, get_avatar.
rewrite !(ServeFacts.login_required_none _ _ _ Hanon). auto.
Qed.

Lemma login_required_forbidden_witness :
login_required
  (fun _ : unit => session_clear ;; ret (Jsonify true JNull)) tt Fixture.fresh
= (Abort 403, Fixture.fresh)
/\ fst (serve (P := Fixture.app) Fixture.noon (ep_get_avatar "alice.png")
          Fixture.plain_get
          (snd (serve (P := Fixture.app) Fixture.noon ep_logout
                  Fixture.plain_get
                  (Fixture.logged_in "alice" "wonderland"))))
   = Abort 403.
Proof.
pose proof (login_required_forbidden (P := Fixture.app)
              (fun _ : unit => session_clear ;; ret (Jsonify true JNull))
              tt Fixture.fresh eq_refl)
  as (Hguard & _ & _ & _ & Hafter).
split; [exact Hguard|].
destruct (Hafter Fixture.noon Fixture.plain_get
            (Fixture.logged_in "alice" "wonderland") eq_refl)
  as (_ & Hnext).
exact (proj2 (Hnext Fixture.noon Fixture.plain_get "alice.png" eq_refl)).
Defined.

(** C6: [super_user_required] answers 403, leaving the world untouched,
  unless [g.user] is a tuple whose user type is 1, and then it runs the
  view; a loaded user of any other type is refused. *)
Theorem super_user_required_forbidden {P : Platform} {K : Type}
  (view : K -> M response) (kwargs : K) (w : world) :
((forall name, g_user w <> Some (name, 1%Z)) ->
 super_user_required view kwargs w = (Abort 403, w))
/\ (forall name type_,
      g_user w = Some (name, type_) -> type_ <> 1%Z ->
      super_user_required view kwargs w = (Abort 403, w))
/\ (forall name,
      g_user w = Some (name, 1%Z) ->
      super_user_required view kwargs w = view kwargs w).
Proof.
assert (Hother : forall name type_,
           g_user w = Some (name, type_) -> type_ <> 1%Z ->
           super_user_required view kwargs w = (Abort 403, w)).
{ intros name t Hg Ht. run_views. repeat (rewrite Hg; simpl).
  destruct (Z.eqb_spec t 1); [contradiction | reflexivity]. }
split; [|split].
- intros Hnot. destruct (g_user w) as [[name t]|] eqn:Hg.
  + apply (Hother name t); [reflexivity|].
    intros ->. now apply (Hnot name).
  + run_views. now rewrite Hg.
- exact Hother.
- intros name Hg. run_views. now repeat (rewrite Hg; simpl).
Qed.

Lemma super_user_required_forbidden_witness :
let carol_in :=
  before_request (P := Fixture.app) (Fixture.logged_in "carol" "singer") in
let alice_in :=
  before_request (P := Fixture.app) (Fixture.logged_in "alice" "wonderland") in
let view := fun _ : unit => ret (Jsonify true (JStr "admin")) in
fst (super_user_required view tt carol_in) = Abort 403
/\ fst (super_user_required view tt alice_in)
   = Return (Jsonify true (JStr "admin")).
Proof.
intros carol_in alice_in view.
destruct (super_user_required_forbidden (P := Fixture.app) view tt carol_in)
  as (_ & Hother & _).
destruct (super_user_required_forbidden (P := Fixture.app) view tt alice_in)
  as (_ & _ & Hsuper).
split.
- rewrite (Hother "carol" 0%Z eq_refl ltac:(discriminate)). reflexivity.
- rewrite (Hsuper "alice" eq_refl). reflexivity.
Defined.



(** * Further properties of the blueprints *)

(** ** [login], branch by branch *)

Module LoginFacts.
Section Login.
Context {P : Platform}.

(** The world a successful POST /login leaves. *)
Lemma login_post_ok (clock : datetime) (w : world)
    (data : gmap string string) (name pw : string) (u : row) :
  data !! "userName" = Some name ->
  data !! "password" = Some pw ->
  select_row name w = Some u ->
  user_status u <> 0%Z ->
  check_password_hash (password u) pw = true ->
  login clock (Request POST (Some data)) w
  = (Return (Jsonify true (JUser (user_name u) (user_type u)
                             (avatar_name u) (last_login_time u))),
     {| users := update_login collation (strftime clock) name (users w);
        users_committed := update_login collation (strftime clock) name (users w);
        queries := ((queries w ++ [SelectUserInfo name])
                    ++ [UpdateLogin (strftime clock) name]) ++ [Commit];
        session := {[ "user_name" := user_name u ]};
        user_cache := user_cache w;
        g_user := g_user w |}).
Proof.
  intros Hname Hpw Hsel Hst Hck. run_views.
  rewrite Hname, Hsel. simpl. rewrite Hpw. simpl. rewrite Hck. simpl.
  destruct (Z.eqb_spec (user_status u) 0) as [|_]; [contradiction|].
  reflexivity.
Qed.

(** The world a successful GET /login leaves. *)
Lemma login_get_ok (clock : datetime) (body : option (gmap string string))
    (w : world) (n : string) (u : row) :
  session w !! "user_name" = Some n ->
  select_row n w = Some u ->
  user_status u <> 0%Z ->
  login clock (Request GET body) w
  = (Return (Jsonify true (JUser (user_name u) (user_type u)
                             (avatar_name u) (last_login_time u))),
     {| users := users w;
        users_committed := users_committed w;
        queries := queries w ++ [SelectUserInfo n];
        session := {[ "user_name" := user_name u ]};
        user_cache := user_cache w;
        g_user := g_user w |}).
Proof.
  intros Hs Hsel Hst. run_views. rewrite Hs. simpl. rewrite Hsel. simpl.
  destruct (Z.eqb_spec (user_status u) 0) as [|_]; [contradiction|].
  reflexivity.
Qed.

(** A SELECT by the stored name of the row a SELECT by [name] returned
    returns that row again, stamped, after the UPDATE by [name]. *)
Lemma select_stored_name (now name : string) (t : list row) (u : row) :
  Scenario.collation_refl -> Scenario.collation_trans ->
  where_user_name collation name t = Some u ->
  where_user_name collation (user_name u) (update_login collation now name t)
  = Some (set_login now u).
Proof.
  intros Hrefl Htrans. unfold where_user_name, update_login.
  induction t as [|r t IH]; simpl; [discriminate|].
  destruct (collation (user_name r) name) eqn:Hr; simpl.
  - intros [= ->]. now rewrite Hrefl.
  - intros Hu. destruct (collation (user_name r) (user_name u)) eqn:Hru.
    + destruct (find_some _ _ Hu) as [_ Hun].
      rewrite (Htrans _ _ _ Hru Hun) in Hr. discriminate.
    + now apply IH.
Qed.

End Login.
End LoginFacts.

Module FixtureFacts.

Lemma ci_eqb_refl (a : string) : Fixture.ci_eqb a a = true.
Proof.
  induction a as [|c a IH]; simpl; [reflexivity|].
  now rewrite Ascii.eqb_refl.
Qed.

Lemma ci_eqb_trans (a b c : string) :
  Fixture.ci_eqb a b = true -> Fixture.ci_eqb b c = true ->
  Fixture.ci_eqb a c = true.
Proof.
  revert b c. induction a as [|x a IH]; intros [|y b] [|z c]; simpl;
    try discriminate; auto.
  rewrite !andb_true_iff, !Ascii.eqb_eq.
  intros [Hxy Hab] [Hyz Hbc]. split; [congruence | eauto].
Qed.

Lemma app_collation_refl : Scenario.collation_refl (P := Fixture.app).
Proof. exact ci_eqb_refl. Qed.

Lemma app_collation_trans : Scenario.collation_trans (P := Fixture.app).
Proof. exact ci_eqb_trans. Qed.

End FixtureFacts.

(** X1: GET /login returns [status: true] exactly when the session's
    claim selects a row whose status is not 0.  It then replies with that
    row's data, replaces the session by the single claim of the stored
    name and executes one SELECT; without a claim it answers
    [status: false] with null data and touches nothing; with a claim that
    selects no row it answers with the cookie message and keeps the
    session. *)
Theorem login_get_revalidates {P : Platform}
    (clock : datetime) (body : option (gmap string string)) (w : world) :
  let result := login clock (Request GET body) w in
  ((exists d, fst result = Return (Jsonify true d))
   <-> (exists n u, session w !! "user_name" = Some n
                    /\ select_row n w = Some u /\ user_status u <> 0%Z))
  /\ (forall n u,
        session w !! "user_name" = Some n -> select_row n w = Some u ->
        user_status u <> 0%Z ->
        fst result
        = Return (Jsonify true (JUser (user_name u) (user_type u)
                                  (avatar_name u) (last_login_time u)))
        /\ session (snd result) = {[ "user_name" := user_name u ]}
        /\ queries (snd result) = (queries w ++ [SelectUserInfo n])%list)
  /\ (session w !! "user_name" = None ->
      result = (Return (Jsonify false JNull), w))
  /\ (forall n,
        session w !! "user_name" = Some n -> select_row n w = None ->
        fst result = Return (Jsonify false (JStr MSG_COOKIE))
        /\ session (snd result) = session w).
Proof.
  intros result. subst result. split; [split|split; [|split]].
  - intros [d Hd]. revert Hd. run_views.
    destruct (session w !! "user_name") as [n|]; simpl; [|discriminate].
    destruct (where_user_name collation n (users w)) as [u|] eqn:Hsel; simpl;
      [|discriminate].
    destruct (Z.eqb_spec (user_status u) 0); simpl; [discriminate|].
    intros _. eauto.
  - intros (n & u & Hs & Hsel & Hst).
    rewrite (LoginFacts.login_get_ok clock body w n u Hs Hsel Hst). eauto.
  - intros n u Hs Hsel Hst.
    rewrite (LoginFacts.login_get_ok clock body w n u Hs Hsel Hst). auto.
  - intros Hs. run_views. now rewrite Hs.
  - intros n Hs Hnone. run_views. rewrite Hs. simpl. rewrite Hnone. auto.
Qed.

(** X2: a [login] that does not return [status: true] leaves the
    session exactly as it was: a cookie naming a deleted or banned user
    is not cleared, and a failed POST does not log the caller out. *)
Theorem login_failure_keeps_session {P : Platform}
    (clock : datetime) (req : request) (w : world) :
  (forall d, fst (login clock req w) <> Return (Jsonify true d)) ->
  session (snd (login clock req w)) = session w.
Proof.
  destruct req as [m body]. intros Hfail. revert Hfail.
  destruct m; run_views; split_cases; intros Hfail;
    first [reflexivity | exfalso; eapply Hfail; reflexivity].
Qed.

Lemma login_failure_keeps_session_witness :
  session (snd (login (P := Fixture.app) Fixture.noon Fixture.plain_get
                  Scenario.bob_cookie))
  = {[ "user_name" := "bob" ]}.
Proof.
  exact (login_failure_keeps_session (P := Fixture.app) Fixture.noon
           Fixture.plain_get Scenario.bob_cookie
           ltac:(intros d; vm_compute; discriminate)).
Defined.

(** X3: a POST /login without a JSON body raises [TypeError], and one
    whose body lacks [userName] raises [KeyError], both before any
    statement runs.  A body with [userName] but no [password] raises
    [KeyError] when the name selects a row and gets the generic failure
    reply when it selects none: [data['password']] is read only after a
    row was found. *)
Theorem login_post_missing_keys {P : Platform}
    (clock : datetime) (w : world) :
  login clock (Request POST None) w = (Raise TypeError, w)
  /\ (forall d, d !! "userName" = None ->
        login clock (Request POST (Some d)) w
        = (Raise (KeyError "userName"), w))
  /\ (forall d n,
        d !! "userName" = Some n -> d !! "password" = None ->
        login clock (Request POST (Some d)) w
        = (match select_row n w with
           | Some _ => Raise (KeyError "password")
           | None => Return (Jsonify false (JStr MSG_CREDENTIALS))
           end,
           logged (SelectUserInfo n) (users w) w)).
Proof.
  split; [reflexivity|]. split.
  - intros d Hd. run_views. now rewrite Hd.
  - intros d n Hn Hpw. run_views. rewrite Hn. simpl.
    destruct (where_user_name collation n (users w)); simpl;
      [now rewrite Hpw | reflexivity].
Qed.

(** ** Requests in sequence *)

Module FlowFacts.
Section Flow.
Context {P : Platform}.

(** The hook does not change what a SELECT returns. *)
Lemma select_after_hook (n : string) (w : world) :
  select_row n (before_request w) = select_row n w.
Proof.
  unfold select_row. now destruct (HookFacts.hook_frame w) as (_ & -> & _).
Qed.

(** A whole POST /login that succeeds. *)
Lemma serve_login_post_ok (clock : datetime) (w : world)
    (data : gmap string string) (name pw : string) (u : row) :
  data !! "userName" = Some name ->
  data !! "password" = Some pw ->
  select_row name w = Some u ->
  user_status u <> 0%Z ->
  check_password_hash (password u) pw = true ->
  let w1 := snd (serve clock ep_login (Request POST (Some data)) w) in
  fst (serve clock ep_login (Request POST (Some data)) w)
  = Return (Jsonify true (JUser (user_name u) (user_type u)
                            (avatar_name u) (last_login_time u)))
  /\ users w1 = update_login collation (strftime clock) name (users w)
  /\ users_committed w1 = users w1
  /\ session w1 = {[ "user_name" := user_name u ]}
  /\ select_row name w1 = Some (set_login (strftime clock) u).
Proof.
  intros Hname Hpw Hsel Hst Hck w1. subst w1.
  rewrite ServeFacts.serve_after_hook. cbv match.
  rewrite <- (select_after_hook name w) in Hsel.
  rewrite (LoginFacts.login_post_ok clock _ data name pw u
             Hname Hpw Hsel Hst Hck).
  unfold select_row in *. simpl.
  destruct (HookFacts.hook_frame w) as (_ & Hu & _). rewrite Hu in *.
  do 4 (split; [reflexivity|]).
  now apply UsersFacts.where_user_name_update.
Qed.

Lemma last_cons {A : Type} (a d : A) (l : list A) :
  List.last (a :: l) d = List.last l a.
Proof.
  revert a d. induction l as [|b l IH]; intros a d; [reflexivity|].
  change (List.last (b :: l) d = List.last (b :: l) a).
  now rewrite !IH.
Qed.

(** Some row answers a SELECT by a name the collation matches. *)
Lemma select_some (n : string) (t : list row) (r : row) :
  In r t -> collation (user_name r) n = true ->
  is_Some (where_user_name collation n t).
Proof.
  intros Hin Hr. unfold where_user_name.
  destruct (List.find _ t) eqn:Hfind; [eauto|].
  pose proof (find_none _ _ Hfind r Hin) as Hno. simpl in Hno. congruence.
Qed.

(** With a claim and a cache entry or a row behind it, the hook loads a
    user. *)
Lemma hook_loads (w : world) (n : string) :
  session w !! "user_name" = Some n ->
  is_Some (user_cache w !! n) \/ is_Some (select_row n w) ->
  is_Some (g_user (before_request w)).
Proof.
  intros Hs Hsrc. destruct (user_cache w !! n) as [c|] eqn:Hc.
  - destruct (HookFacts.hook_hit w n c Hs Hc) as (-> & _). eauto.
  - destruct (HookFacts.hook_miss w n Hs Hc) as (_ & -> & _).
    destruct Hsrc as [[? [=]] | [r ->]]. simpl. eauto.
Qed.

(** With a user loaded, /logout succeeds and an avatar request gets past
    the guard. *)
Lemma guarded_routes_pass (clock : datetime)
    (body : option (gmap string string)) (w : world) :
  is_Some (g_user (before_request w)) ->
  fst (serve clock ep_logout (Request GET body) w) = Return (Jsonify true JNull)
  /\ session (snd (serve clock ep_logout (Request GET body) w)) = ∅
  /\ forall f,
       fst (serve clock (ep_get_avatar f) (Request GET body) w) <> Abort 403.
Proof.
  intros [c Hc]. rewrite ServeFacts.serve_after_hook.
  cbv beta iota delta [method].
  unfold logout. rewrite (ServeFacts.login_required_some _ _ _ c Hc).
  split; [reflexivity|]. split; [reflexivity|].
  intros f. rewrite ServeFacts.serve_after_hook.
  cbv beta iota delta [method].
  unfold get_avatar. rewrite (ServeFacts.login_required_some _ _ _ c Hc).
  run_views. split_cases; discriminate.
Qed.

(** A /logout that answered [status: true] left an empty session. *)
Lemma logout_clears (clock : datetime) (req : request) (w : world) :
  fst (serve clock ep_logout req w) = Return (Jsonify true JNull) ->
  session (snd (serve clock ep_logout req w)) = ∅.
Proof.
  rewrite ServeFacts.serve_after_hook.
  destruct (method req); [|discriminate].
  destruct (g_user (before_request w)) as [c|] eqn:Hc; unfold logout.
  - now rewrite (ServeFacts.login_required_some _ _ _ c Hc).
  - rewrite (ServeFacts.login_required_none _ _ _ Hc). discriminate.
Qed.

End Flow.
End FlowFacts.

(** X4: the same valid credentials posted once per clock reading raise
    the row's [login_count] by the number of requests and leave
    [last_login_time] at the last reading; password, status and name of
    the row stay as they were. *)
Theorem login_each_counts {P : Platform} (clocks : list datetime)
    (w : world) (data : gmap string string) (name pw : string) (u : row) :
  data !! "userName" = Some name ->
  data !! "password" = Some pw ->
  select_row name w = Some u ->
  user_status u <> 0%Z ->
  check_password_hash (password u) pw = true ->
  exists u',
    select_row name
      (Scenario.login_each clocks (Request POST (Some data)) w) = Some u'
    /\ login_count u' = (login_count u + Z.of_nat (List.length clocks))%Z
    /\ last_login_time u'
       = List.last (List.map (fun c => Some (strftime c)) clocks)
                   (last_login_time u)
    /\ password u' = password u /\ user_status u' = user_status u
    /\ user_name u' = user_name u.
Proof.
  intros Hname Hpw. revert w u.
  induction clocks as [|c clocks IH]; intros w u Hsel Hst Hck.
  - exists u. simpl. rewrite Z.add_0_r.
    split; [exact Hsel|]. repeat split.
  - destruct (FlowFacts.serve_login_post_ok c w data name pw u
                Hname Hpw Hsel Hst Hck) as (_ & _ & _ & _ & Hsel1).
    destruct (IH _ (set_login (strftime c) u) Hsel1 Hst Hck)
      as (u' & Hsel' & Hcount & Hlast & Hp & Hs & Hn).
    exists u'. split; [exact Hsel'|].
    split; [rewrite Hcount; simpl login_count; simpl List.length; lia|].
    split; [|auto].
    rewrite Hlast. simpl List.map. now rewrite FlowFacts.last_cons.
Qed.

Lemma login_each_counts_witness :
  option_map login_count
    (select_row (P := Fixture.app) "alice"
       (Scenario.login_each (P := Fixture.app)
          [Fixture.noon; Scenario.late; Scenario.late]
          (Fixture.credentials "alice" "wonderland") Fixture.fresh))
  = Some 44%Z.
Proof.
  pose proof (login_each_counts (P := Fixture.app)
                [Fixture.noon; Scenario.late; Scenario.late] Fixture.fresh
                (<["userName" := "alice"]> {[ "password" := "wonderland" ]})
                "alice" "wonderland" Fixture.alice
                eq_refl eq_refl eq_refl ltac:(discriminate) eq_refl)
    as (u' & Hsel & Hcount & _).
  unfold Fixture.credentials. rewrite Hsel. simpl. rewrite Hcount.
  reflexivity.
Defined.

(** X5: when the same valid credentials are posted twice, the second
    reply's [lastLoginTime] is the clock reading of the first request. *)
Theorem login_twice_reports_first {P : Platform} (clock1 clock2 : datetime)
    (w : world) (data : gmap string string) (name pw : string) (u : row) :
  data !! "userName" = Some name ->
  data !! "password" = Some pw ->
  select_row name w = Some u ->
  user_status u <> 0%Z ->
  check_password_hash (password u) pw = true ->
  let request := Request POST (Some data) in
  let w1 := snd (serve clock1 ep_login request w) in
  fst (serve clock2 ep_login request w1)
  = Return (Jsonify true (JUser (user_name u) (user_type u) (avatar_name u)
                            (Some (strftime clock1)))).
Proof.
  intros Hname Hpw Hsel Hst Hck request w1. subst request w1.
  destruct (FlowFacts.serve_login_post_ok clock1 w data name pw u
              Hname Hpw Hsel Hst Hck) as (_ & _ & _ & _ & Hsel1).
  destruct (FlowFacts.serve_login_post_ok clock2 _ data name pw
              (set_login (strftime clock1) u) Hname Hpw Hsel1 Hst Hck)
    as (Hout & _).
  exact Hout.
Qed.

Lemma login_twice_reports_first_witness :
  fst (serve (P := Fixture.app) Scenario.late ep_login
         (Fixture.credentials "alice" "wonderland")
         (Fixture.logged_in "alice" "wonderland"))
  = Return (Jsonify true
              (JUser "alice" 1 "alice.png" (Some "2019-07-04 12:00:09"))).
Proof.
  exact (login_twice_reports_first (P := Fixture.app) Fixture.noon
           Scenario.late Fixture.fresh
           (<["userName" := "alice"]> {[ "password" := "wonderland" ]})
           "alice" "wonderland" Fixture.alice
           eq_refl eq_refl eq_refl ltac:(discriminate) eq_refl).
Defined.

(** X6: under a reflexive and transitive collation, a GET /login that
    follows a successful POST /login returns [status: true] for the same
    user, with the POST's clock reading as [lastLoginTime], and leaves
    the table as the POST left it. *)
Theorem login_then_revalidate {P : Platform} (clock clock' : datetime)
    (body' : option (gmap string string)) (w : world)
    (data : gmap string string) (name pw : string) (u : row) :
  Scenario.collation_refl -> Scenario.collation_trans ->
  data !! "userName" = Some name ->
  data !! "password" = Some pw ->
  select_row name w = Some u ->
  user_status u <> 0%Z ->
  check_password_hash (password u) pw = true ->
  let w1 := snd (serve clock ep_login (Request POST (Some data)) w) in
  let again := serve clock' ep_login (Request GET body') w1 in
  fst again
  = Return (Jsonify true (JUser (user_name u) (user_type u) (avatar_name u)
                            (Some (strftime clock))))
  /\ users (snd again) = users w1
  /\ session (snd again) = session w1.
Proof.
  intros Hrefl Htrans Hname Hpw Hsel Hst Hck w1 again. subst again.
  destruct (FlowFacts.serve_login_post_ok clock w data name pw u
              Hname Hpw Hsel Hst Hck) as (_ & Hu1 & _ & Hs1 & _).
  fold w1 in Hu1, Hs1.
  destruct (HookFacts.hook_frame w1) as (Fs & Fu & _).
  rewrite ServeFacts.serve_after_hook. cbv match.
  rewrite (LoginFacts.login_get_ok clock' body' (before_request w1)
             (user_name u) (set_login (strftime clock) u)).
  - simpl. rewrite Fu, Hs1. auto.
  - rewrite Fs, Hs1. apply lookup_singleton_eq.
  - unfold select_row. rewrite Fu, Hu1.
    apply LoginFacts.select_stored_name; assumption.
  - exact Hst.
Qed.

Lemma login_then_revalidate_witness :
  fst (serve (P := Fixture.app) Scenario.late ep_login Fixture.plain_get
         (Fixture.logged_in "ALICE" "wonderland"))
  = Return (Jsonify true
              (JUser "alice" 1 "alice.png" (Some "2019-07-04 12:00:09"))).
Proof.
  exact (proj1 (login_then_revalidate (P := Fixture.app) Fixture.noon
                  Scenario.late None Fixture.fresh
                  (<["userName" := "ALICE"]> {[ "password" := "wonderland" ]})
                  "ALICE" "wonderland" Fixture.alice
                  FixtureFacts.app_collation_refl
                  FixtureFacts.app_collation_trans
                  eq_refl eq_refl eq_refl ltac:(discriminate) eq_refl)).
Defined.

(** X7: under a reflexive collation, after a successful POST /login the
    next request finds a user: /logout answers [status: true] and an
    avatar request is not answered 403. *)
Theorem login_then_guard_passes {P : Platform} (clock clock' : datetime)
    (body' : option (gmap string string)) (w : world)
    (data : gmap string string) (name pw : string) (u : row) :
  Scenario.collation_refl ->
  data !! "userName" = Some name ->
  data !! "password" = Some pw ->
  select_row name w = Some u ->
  user_status u <> 0%Z ->
  check_password_hash (password u) pw = true ->
  let w1 := snd (serve clock ep_login (Request POST (Some data)) w) in
  fst (serve clock' ep_logout (Request GET body') w1)
  = Return (Jsonify true JNull)
  /\ forall f,
       fst (serve clock' (ep_get_avatar f) (Request GET body') w1)
       <> Abort 403.
Proof.
  intros Hrefl Hname Hpw Hsel Hst Hck w1.
  destruct (FlowFacts.serve_login_post_ok clock w data name pw u
              Hname Hpw Hsel Hst Hck) as (_ & _ & _ & Hs1 & Hsel1).
  fold w1 in Hs1, Hsel1.
  destruct (UsersFacts.where_user_name_matches _ _ _ _ Hsel1) as [Hin _].
  assert (Hloaded : is_Some (g_user (before_request w1))).
  { apply (FlowFacts.hook_loads w1 (user_name u)).
    - rewrite Hs1. apply lookup_singleton_eq.
    - right. apply (FlowFacts.select_some _ _ _ Hin). apply Hrefl. }
  destruct (FlowFacts.guarded_routes_pass clock' body' w1 Hloaded)
    as (Hout & _ & Havatar).
  split; assumption.
Qed.

Lemma login_then_guard_passes_witness :
  fst (serve (P := Fixture.app) Scenario.late ep_logout Fixture.plain_get
         (Fixture.logged_in "carol" "singer"))
  = Return (Jsonify true JNull).
Proof.
  exact (proj1 (login_then_guard_passes (P := Fixture.app) Fixture.noon
                  Scenario.late None Fixture.fresh
                  (<["userName" := "carol"]> {[ "password" := "singer" ]})
                  "carol" "singer" Fixture.carol
                  FixtureFacts.app_collation_refl
                  eq_refl eq_refl eq_refl ltac:(discriminate) eq_refl)).
Defined.

(** X8: after a /logout that answered [status: true], a GET /login
    answers [status: false] with null data and the whole request executes
    no statement. *)
Theorem logout_then_login_get {P : Platform} (clock clock' : datetime)
    (req : request) (body' : option (gmap string string)) (w : world) :
  fst (serve clock ep_logout req w) = Return (Jsonify true JNull) ->
  let w1 := snd (serve clock ep_logout req w) in
  let again := serve clock' ep_login (Request GET body') w1 in
  fst again = Return (Jsonify false JNull)
  /\ queries (snd again) = queries w1
  /\ session (snd again) = ∅
  /\ g_user (snd again) = None.
Proof.
  intros Hout w1 again. subst again.
  pose proof (FlowFacts.logout_clears clock req w Hout) as Hempty.
  fold w1 in Hempty.
  assert (Hclaim : session w1 !! "user_name" = None)
    by (rewrite Hempty; apply lookup_empty).
  run_views. rewrite Hclaim. simpl. rewrite Hclaim. simpl. auto.
Qed.

Lemma logout_then_login_get_witness :
  fst (serve (P := Fixture.app) Scenario.late ep_login Fixture.plain_get
         (snd (serve (P := Fixture.app) Fixture.noon ep_logout
                 Fixture.plain_get (Fixture.logged_in "alice" "wonderland"))))
  = Return (Jsonify false JNull).
Proof.
  exact (proj1 (logout_then_login_get (P := Fixture.app) Fixture.noon
                  Scenario.late Fixture.plain_get None
                  (Fixture.logged_in "alice" "wonderland") eq_refl)).
Defined.

(** X9: the hook does not read [user_status].  A session claim that
    selects a row with status 0 still loads a user, so /logout answers
    [status: true] and an avatar request gets past the guard, although
    GET /login answers the same session with the banned message. *)
Theorem disabled_cookie_passes_guard {P : Platform} (clock : datetime)
    (body : option (gmap string string)) (w : world) (n : string) (u : row) :
  session w !! "user_name" = Some n ->
  select_row n w = Some u ->
  user_status u = 0%Z ->
  fst (serve clock ep_logout (Request GET body) w) = Return (Jsonify true JNull)
  /\ (forall f,
        fst (serve clock (ep_get_avatar f) (Request GET body) w) <> Abort 403)
  /\ fst (serve clock ep_login (Request GET body) w)
     = Return (Jsonify false (JStr MSG_BANNED)).
Proof.
  intros Hs Hsel Hst.
  assert (Hloaded : is_Some (g_user (before_request w))).
  { apply (FlowFacts.hook_loads w n Hs). right. rewrite Hsel. eauto. }
  destruct (FlowFacts.guarded_routes_pass clock body w Hloaded)
    as (Hout & _ & Havatar).
  split; [exact Hout|]. split; [exact Havatar|].
  rewrite ServeFacts.serve_after_hook. cbv match.
  destruct (HookFacts.hook_frame w) as (Fs & _).
  rewrite <- Fs in Hs. rewrite <- FlowFacts.select_after_hook in Hsel.
  revert Hs Hsel. generalize (before_request w). intros w0 Hs Hsel.
  run_views. rewrite Hs. simpl. rewrite Hsel. simpl. now rewrite Hst.
Qed.

Lemma disabled_cookie_passes_guard_witness :
  fst (serve (P := Fixture.app) Fixture.noon ep_logout Fixture.plain_get
         Scenario.bob_cookie)
  = Return (Jsonify true JNull)
  /\ fst (serve (P := Fixture.app) Fixture.noon ep_login Fixture.plain_get
            Scenario.bob_cookie)
     = Return (Jsonify false (JStr MSG_BANNED)).
Proof.
  pose proof (disabled_cookie_passes_guard (P := Fixture.app) Fixture.noon
                None Scenario.bob_cookie "bob" Fixture.bob
                eq_refl eq_refl eq_refl) as (Hout & _ & Hban).
  split; assumption.
Defined.

(** X10: while the cache holds an entry for the session's user, the hook
    loads that entry whatever the [users] table now says, without a
    statement; [super_user_required] then decides on the cached type, so
    a cached type 1 runs the view and any other cached type is refused,
    even when the row has changed or is gone. *)
Theorem cached_type_outlives_row {P : Platform} {K : Type}
    (view : K -> M response) (kwargs : K) (w : world) (t : list row)
    (n name : string) (type_ : Z) :
  session w !! "user_name" = Some n ->
  user_cache w !! n = Some (name, type_) ->
  let w' := before_request (Scenario.with_users t w) in
  g_user w' = Some (name, type_)
  /\ queries w' = queries w
  /\ super_user_required view kwargs w'
     = if (type_ =? 1)%Z then view kwargs w' else (Abort 403, w').
Proof.
  intros Hs Hc w'.
  destruct (HookFacts.hook_hit (Scenario.with_users t w) n (name, type_)
              Hs Hc) as (Hg & Hq & _).
  fold w' in Hg, Hq.
  split; [exact Hg|]. split; [exact Hq|].
  revert Hg. generalize w'. intros w0 Hg.
  run_views. repeat (rewrite Hg; simpl).
  destruct (type_ =? 1)%Z; reflexivity.
Qed.

Lemma cached_type_outlives_row_witness :
  fst (super_user_required
         (fun _ : unit => ret (Jsonify true (JStr "admin"))) tt
         (before_request (P := Fixture.app)
            (Scenario.with_users [] Scenario.alice_cached)))
  = Return (Jsonify true (JStr "admin")).
Proof.
  pose proof (cached_type_outlives_row (P := Fixture.app)
                (fun _ : unit => ret (Jsonify true (JStr "admin"))) tt
                Scenario.alice_cached [] "alice" "alice" 1%Z eq_refl eq_refl)
    as (_ & _ & Hrun).
  cbv zeta in Hrun. rewrite Hrun. reflexivity.
Defined.

(** ** What a request leaves alone *)

Module FrameFacts.
Section Frame.
Context {P : Platform}.

(** The views write neither the cache nor [g.user]. *)
Lemma login_cache_frame (clock : datetime) (req : request) (w : world) :
  user_cache (snd (login clock req w)) = user_cache w
  /\ g_user (snd (login clock req w)) = g_user w.
Proof.
  destruct req as [m body]. destruct m; run_views; split_cases; auto.
Qed.

Lemma logout_cache_frame (w : world) :
  user_cache (snd (logout tt w)) = user_cache w
  /\ g_user (snd (logout tt w)) = g_user w.
Proof. run_views. split_cases; auto. Qed.

Lemma get_avatar_world (f : string) (w : world) : snd (get_avatar f w) = w.
Proof. run_views. split_cases; auto. Qed.

(** What the view of a request does to the cache: nothing. *)
Lemma view_cache_frame (clock : datetime) (e : endpoint) (req : request)
    (w : world) :
  user_cache (snd (serve clock e req w)) = user_cache (before_request w).
Proof.
  rewrite ServeFacts.serve_after_hook.
  destruct e as [| |f].
  - apply login_cache_frame.
  - destruct (method req); [apply logout_cache_frame | reflexivity].
  - destruct (method req); [now rewrite get_avatar_world | reflexivity].
Qed.

(** The hook calls [user_cache.set] only on a miss whose SELECT returned
    a row; otherwise it leaves the cache as it found it. *)
Lemma hook_cache_unwritten (w : world) :
  session w !! "user_name" = None
  \/ (exists n, session w !! "user_name" = Some n
                /\ (is_Some (user_cache w !! n) \/ select_row n w = None)) ->
  user_cache (before_request w) = user_cache w.
Proof.
  intros [Hs | (n & Hs & [[c Hc] | Hnone])].
  - run_views. now rewrite Hs.
  - now destruct (HookFacts.hook_hit w n c Hs Hc) as (_ & _ & ->).
  - destruct (user_cache w !! n) as [c|] eqn:Hc.
    + now destruct (HookFacts.hook_hit w n c Hs Hc) as (_ & _ & ->).
    + destruct (HookFacts.hook_miss w n Hs Hc) as (_ & _ & ->).
      now rewrite Hnone.
Qed.

(** After a miss whose SELECT returned a row, the entry of the session's
    user is that row's (user_name, user_type). *)
Lemma hook_cache_written (w : world) (n : string) (r : row) :
  session w !! "user_name" = Some n ->
  user_cache w !! n = None ->
  select_row n w = Some r ->
  user_cache (before_request w) !! n = Some (user_name r, user_type r).
Proof.
  intros Hs Hc Hr.
  destruct (HookFacts.hook_miss w n Hs Hc) as (_ & _ & ->).
  rewrite Hr. simpl. apply lookup_insert_eq.
Qed.

(** A [login] keeps the connection free of uncommitted changes. *)
Lemma login_committed (clock : datetime) (req : request) (w : world) :
  users w = users_committed w ->
  users (snd (login clock req w)) = users_committed (snd (login clock req w)).
Proof.
  destruct req as [m body]. intros Hclean.
  destruct m; run_views; split_cases; auto.
Qed.

(** The table after a request is the table before, or the table before
    with one UPDATE applied. *)
Lemma serve_users (clock : datetime) (e : endpoint) (req : request)
    (w : world) :
  users (snd (serve clock e req w)) = users w
  \/ exists now name,
       users (snd (serve clock e req w))
       = update_login collation now name (users w).
Proof.
  rewrite ServeFacts.serve_after_hook.
  destruct (HookFacts.hook_frame w) as (_ & Hu & _). rewrite <- Hu.
  generalize (before_request w). intros w0.
  destruct e as [| |f].
  - destruct req as [m body].
    destruct m; run_views; split_cases; eauto.
  - left. destruct (method req); [apply ServeFacts.logout_frame | reflexivity].
  - left. destruct (method req);
      [apply ServeFacts.get_avatar_frame | reflexivity].
Qed.

End Frame.
End FrameFacts.

(** X11: [get_avatar] never changes the world and never replies with
    JSON.  It answers 403 exactly when no user is loaded, and sends a
    file exactly when a user is loaded, [AVATAR_PATH] is configured and the
    file exists under [os.path.join(instance_path, AVATAR_PATH)]. *)
Theorem get_avatar_outcomes {P : Platform} (filename : string) (w : world) :
  snd (get_avatar filename w) = w
  /\ (fst (get_avatar filename w) = Abort 403 <-> g_user w = None)
  /\ (forall content,
        fst (get_avatar filename w) = Return (SendFile content)
        <-> is_Some (g_user w)
            /\ exists path,
                 config !! "AVATAR_PATH" = Some path
                 /\ files (os_path_join instance_path path) filename
                    = Some content)
  /\ (forall status data,
        fst (get_avatar filename w) <> Return (Jsonify status data)).
Proof.
  split; [apply FrameFacts.get_avatar_world|].
  run_views.
  destruct (g_user w) as [u|]; simpl.
  - destruct (config !! "AVATAR_PATH") as [p|]; simpl.
    + destruct (files (os_path_join instance_path p) filename) as [c|] eqn:Hf;
        simpl.
      * split; [split; discriminate|]. split; [|discriminate].
        intros c'. split.
        -- intros [= <-]. eauto.
        -- intros (_ & p' & [= <-] & Hf'). congruence.
      * split; [split; discriminate|]. split; [|discriminate].
        intros c'. split; [discriminate|].
        intros (_ & p' & [= <-] & Hf'). congruence.
    + split; [split; discriminate|]. split; [|discriminate].
      intros c'. split; [discriminate|]. intros (_ & p' & [=] & _).
  - split; [split; reflexivity|]. split; [|discriminate].
    intros c'. split; [discriminate|]. intros ([? [=]] & _).
Qed.

(** X12: [login], [logout] and [get_avatar] never write [user_cache] or
    [g.user]; over a whole request the cache is the one the hook leaves.
    The hook calls [user_cache.set] only on a miss whose SELECT returned a
    row, and the entry of the session's user is then that row's
    (user_name, user_type); without a claim, on a hit, and on a miss
    that finds no row, the cache stays exactly as it was. *)
Theorem user_cache_written_by_hook {P : Platform} (clock : datetime)
    (w : world) :
  (forall req,
     user_cache (snd (login clock req w)) = user_cache w
     /\ g_user (snd (login clock req w)) = g_user w)
  /\ (user_cache (snd (logout tt w)) = user_cache w
      /\ g_user (snd (logout tt w)) = g_user w)
  /\ (forall filename,
        user_cache (snd (get_avatar filename w)) = user_cache w
        /\ g_user (snd (get_avatar filename w)) = g_user w)
  /\ (forall e req,
        user_cache (snd (serve clock e req w))
        = user_cache (before_request w))
  /\ (session w !! "user_name" = None
      \/ (exists n, session w !! "user_name" = Some n
                    /\ (is_Some (user_cache w !! n)
                        \/ select_row n w = None)) ->
      forall e req, user_cache (snd (serve clock e req w)) = user_cache w)
  /\ (forall n r e req,
        session w !! "user_name" = Some n ->
        user_cache w !! n = None ->
        select_row n w = Some r ->
        user_cache (snd (serve clock e req w)) !! n
        = Some (user_name r, user_type r)).
Proof.
  split; [intros req; apply FrameFacts.login_cache_frame|].
  split; [apply FrameFacts.logout_cache_frame|].
  split; [intros f; now rewrite FrameFacts.get_avatar_world|].
  split; [intros e req; apply FrameFacts.view_cache_frame|].
  split.
  - intros Hcase e req. rewrite FrameFacts.view_cache_frame.
    now apply FrameFacts.hook_cache_unwritten.
  - intros n r e req Hs Hc Hr. rewrite FrameFacts.view_cache_frame.
    now apply FrameFacts.hook_cache_written.
Qed.

(** X13: a request that starts on a connection without uncommitted
    changes ends on one: whatever the route and the outcome, every UPDATE
    executed has been committed. *)
Theorem no_uncommitted_update {P : Platform} (clock : datetime)
    (e : endpoint) (req : request) (w : world) :
  users w = users_committed w ->
  users (snd (serve clock e req w))
  = users_committed (snd (serve clock e req w)).
Proof.
  intros Hclean. rewrite ServeFacts.serve_after_hook.
  destruct (HookFacts.hook_frame w) as (_ & Hu & Hc).
  assert (Hclean0 : users (before_request w)
                    = users_committed (before_request w)) by congruence.
  destruct e as [| |f].
  - now apply FrameFacts.login_committed.
  - destruct (method req); [|exact Hclean0].
    destruct (ServeFacts.logout_frame (before_request w)) as [-> ->].
    exact Hclean0.
  - destruct (method req); [|exact Hclean0].
    now rewrite FrameFacts.get_avatar_world.
Qed.

Lemma no_uncommitted_update_witness :
  users (Fixture.logged_in "alice" "wonderland")
  = users_committed (Fixture.logged_in "alice" "wonderland").
Proof.
  exact (no_uncommitted_update (P := Fixture.app) Fixture.noon ep_login
           (Fixture.credentials "alice" "wonderland") Fixture.fresh eq_refl).
Defined.

(** X14: no request adds or deletes a row, and every row keeps its
    password, id, name, type, avatar name and status; its [login_count]
    never falls and rises by at most one per request. *)
Theorem rows_kept {P : Platform} (clock : datetime) (e : endpoint)
    (req : request) (w : world) :
  let w' := snd (serve clock e req w) in
  List.length (users w') = List.length (users w)
  /\ forall i r,
       users w !! i = Some r ->
       exists r', users w' !! i = Some r' /\ Scenario.row_kept r r'.
Proof.
  intros w'. subst w'.
  assert (Hsame : forall r, Scenario.row_kept r r)
    by (intros r; unfold Scenario.row_kept; repeat split; lia).
  destruct (FrameFacts.serve_users clock e req w) as [-> | (now & name & ->)].
  - split; [reflexivity|]. eauto.
  - split; [apply UsersFacts.update_login_length|].
    intros i r Hr. rewrite UsersFacts.update_login_lookup, Hr. simpl.
    eexists. split; [reflexivity|].
    destruct (collation (user_name r) name); [|apply Hsame].
    unfold Scenario.row_kept. simpl. repeat split; lia.
Qed.

(** ** The timestamp identifies the clock reading *)

Module StrftimeFacts.

Lemma shape_length (pat s : string) :
  shape pat s = true -> String.length s = String.length pat.
Proof.
  revert s. induction pat as [|p pat IH]; intros [|c s]; simpl;
    try discriminate; [reflexivity|].
  rewrite andb_true_iff. intros [_ Hs]. f_equal. now apply IH.
Qed.

Lemma app_inj_length (s1 s2 t1 t2 : string) :
  String.length s1 = String.length s2 ->
  s1 ++ t1 = s2 ++ t2 -> s1 = s2 /\ t1 = t2.
Proof.
  revert s2. induction s1 as [|c s1 IH]; intros [|c' s2]; simpl;
    try discriminate; [auto|].
  intros [= Hlen] [= -> Happ]. destruct (IH _ Hlen Happ) as [-> ->]. auto.
Qed.

(** Reading the digits of a printed year or field gives the number
    back. *)
Lemma number_of_fmt_Y (y : Z) :
  (1000 <= y <= 9999)%Z -> Scenario.number_of (fmt_Y y) = y.
Proof.
  assert (Hall : forallb (fun y => (Scenario.number_of (fmt_Y y) =? y)%Z)
                   (seqZ 1000 9000) = true)
    by (vm_compute; reflexivity).
  intros Hy. rewrite forallb_forall in Hall. apply Z.eqb_eq, Hall.
  apply list_elem_of_In, elem_of_seqZ. lia.
Qed.

Lemma number_of_fmt_02 (n : Z) :
  (0 <= n < 100)%Z -> Scenario.number_of (fmt_02 n) = n.
Proof.
  assert (Hall : forallb (fun n => (Scenario.number_of (fmt_02 n) =? n)%Z)
                   (seqZ 0 100) = true)
    by (vm_compute; reflexivity).
  intros Hn. rewrite forallb_forall in Hall. apply Z.eqb_eq, Hall.
  apply list_elem_of_In, elem_of_seqZ. lia.
Qed.

Lemma fmt_Y_inj (y1 y2 : Z) :
  (1000 <= y1 <= 9999)%Z -> (1000 <= y2 <= 9999)%Z ->
  fmt_Y y1 = fmt_Y y2 -> y1 = y2.
Proof.
  intros H1 H2 Heq.
  rewrite <- (number_of_fmt_Y y1 H1), <- (number_of_fmt_Y y2 H2).
  now rewrite Heq.
Qed.

Lemma fmt_02_inj (n1 n2 : Z) :
  (0 <= n1 < 100)%Z -> (0 <= n2 < 100)%Z ->
  fmt_02 n1 = fmt_02 n2 -> n1 = n2.
Proof.
  intros H1 H2 Heq.
  rewrite <- (number_of_fmt_02 n1 H1), <- (number_of_fmt_02 n2 H2).
  now rewrite Heq.
Qed.

Lemma fmt_Y_length (y : Z) :
  (1000 <= y <= 9999)%Z -> String.length (fmt_Y y) = 4%nat.
Proof.
  intros Hy. apply (shape_length "YYYY"). now apply ClockFacts.fmt_Y_four_digits.
Qed.

Lemma fmt_02_length (n : Z) :
  (0 <= n < 100)%Z -> String.length (fmt_02 n) = 2%nat.
Proof.
  intros Hn. apply (shape_length "DD"). now apply ClockFacts.fmt_02_two_digits.
Qed.

Lemma plausible_bounds (d : datetime) :
  plausible d = true ->
  (1000 <= year d <= 9999)%Z /\ (0 <= month d < 100)%Z
  /\ (0 <= day d < 100)%Z /\ (0 <= hour d < 100)%Z
  /\ (0 <= minute d < 100)%Z /\ (0 <= second d < 100)%Z.
Proof.
  unfold plausible. rewrite !andb_true_iff, !Z.leb_le, !Z.ltb_lt. lia.
Qed.

End StrftimeFacts.

(** X15: [strftime('%Y-%m-%d %H:%M:%S')] tells plausible clock readings
    apart: two readings that print alike are the same second, so the
    text written to [last_login_time] determines the time of the login. *)
Theorem strftime_injective (d1 d2 : datetime) :
  plausible d1 = true -> plausible d2 = true ->
  strftime d1 = strftime d2 -> d1 = d2.
Proof.
  intros P1 P2.
  destruct (StrftimeFacts.plausible_bounds d1 P1)
    as (Hy1 & Hm1 & Hd1 & Hh1 & Hi1 & Hs1).
  destruct (StrftimeFacts.plausible_bounds d2 P2)
    as (Hy2 & Hm2 & Hd2 & Hh2 & Hi2 & Hs2).
  destruct d1 as [y1 m1 a1 h1 i1 s1], d2 as [y2 m2 a2 h2 i2 s2].
  unfold strftime. cbn [year month day hour minute second] in *.
  intros Heq.
  apply StrftimeFacts.app_inj_length in Heq as [Hy Heq];
    [|now rewrite !StrftimeFacts.fmt_Y_length].
  apply StrftimeFacts.app_inj_length in Heq as [_ Heq]; [|reflexivity].
  apply StrftimeFacts.app_inj_length in Heq as [Hm Heq];
    [|now rewrite !StrftimeFacts.fmt_02_length].
  apply StrftimeFacts.app_inj_length in Heq as [_ Heq]; [|reflexivity].
  apply StrftimeFacts.app_inj_length in Heq as [Hd Heq];
    [|now rewrite !StrftimeFacts.fmt_02_length].
  apply StrftimeFacts.app_inj_length in Heq as [_ Heq]; [|reflexivity].
  apply StrftimeFacts.app_inj_length in Heq as [Hh Heq];
    [|now rewrite !StrftimeFacts.fmt_02_length].
  apply StrftimeFacts.app_inj_length in Heq as [_ Heq]; [|reflexivity].
  apply StrftimeFacts.app_inj_length in Heq as [Hi Heq];
    [|now rewrite !StrftimeFacts.fmt_02_length].
  apply StrftimeFacts.app_inj_length in Heq as [_ Hs]; [|reflexivity].
  apply StrftimeFacts.fmt_Y_inj in Hy; [|assumption..].
  apply StrftimeFacts.fmt_02_inj in Hm; [|assumption..].
  apply StrftimeFacts.fmt_02_inj in Hd; [|assumption..].
  apply StrftimeFacts.fmt_02_inj in Hh; [|assumption..].
  apply StrftimeFacts.fmt_02_inj in Hi; [|assumption..].
  apply StrftimeFacts.fmt_02_inj in Hs; [|assumption..].
  congruence.
Qed.

Lemma strftime_injective_witness :
  Fixture.noon = DateTime 2019 7 4 12 0 9.
Proof.
  exact (strftime_injective Fixture.noon (DateTime 2019 7 4 12 0 9)
           eq_refl eq_refl eq_refl).
Defined.

(** ** The static routes *)

(** X16: the avatar route of the index blueprint has no guard.  When
    its folder is the directory the guarded route computes, the two agree
    for a loaded user, and without one the guarded route answers 403
    while the public one still sends the file. *)
Theorem public_avatar_bypasses_guard {P : Platform} {S : Index.Site}
    (filename path : string) (w : world) :
  config !! "AVATAR_PATH" = Some path ->
  Index.avatar_folder = os_path_join instance_path path ->
  (forall u, g_user w = Some u ->
     Index.get_avatar filename w = get_avatar filename w)
  /\ (g_user w = None ->
      get_avatar filename w = (Abort 403, w)
      /\ forall content,
           files (os_path_join instance_path path) filename = Some content ->
           Index.get_avatar filename w = (Return (SendFile content), w)).
Proof.
  intros Hcfg Hdir. split.
  - intros u Hu. unfold Index.get_avatar. run_views.
    now rewrite Hu, Hcfg, Hdir.
  - intros Hnone. split.
    + now apply ServeFacts.login_required_none.
    + intros c Hc. unfold Index.get_avatar. run_views.
      now rewrite Hdir, Hc.
Qed.

Lemma public_avatar_bypasses_guard_witness :
  get_avatar (P := Fixture.app) "alice.png" Fixture.fresh
  = (Abort 403, Fixture.fresh)
  /\ Index.get_avatar (P := Fixture.app) (S := Scenario.site) "alice.png"
       Fixture.fresh
     = (Return (SendFile "PNG"), Fixture.fresh).
Proof.
  pose proof (public_avatar_bypasses_guard (P := Fixture.app)
                (S := Scenario.site) "alice.png" "media/avatars"
                Fixture.fresh eq_refl eq_refl) as [_ Hanon].
  destruct (Hanon eq_refl) as [Hguarded Hpublic].
  split; [exact Hguarded | exact (Hpublic "PNG" eq_refl)].
Defined.

(** X17: the hook is registered for the whole application, so it runs
    before the static routes too: the world after a favicon or public
    avatar request is the world the hook leaves, which for a session claim
    not in the cache includes one SELECT; the reply itself does not depend
    on the session, the cache or the table. *)
Theorem static_routes_run_hook {P : Platform} {S : Index.Site}
    (e : Index.endpoint) (req : request) (w : world) :
  snd (Index.serve e req w) = before_request w
  /\ (forall w2, fst (Index.serve e req w2) = fst (Index.serve e req w))
  /\ (forall n,
        session w !! "user_name" = Some n -> user_cache w !! n = None ->
        queries (snd (Index.serve e req w))
        = (queries w ++ [SelectNameType n])%list).
Proof.
  assert (Hserve : forall w0,
             Index.serve e req w0
             = (fst (match e, method req with
                     | Index.ep_favicon, GET => Index.favicon tt
                     | Index.ep_get_avatar f, GET => Index.get_avatar f
                     | _, POST => abort 405
                     end (before_request w0)), before_request w0)).
  { intros w0. pose proof (HookFacts.hook_returns w0) as Hret.
    unfold Index.serve, bind, before_request.
    destruct (load_logged_in_user w0) as [o w1]. simpl in *. subst o.
    destruct e as [|f], (method req);
      unfold Index.favicon, Index.get_avatar, send_from_directory, abort, ret;
      split_cases; reflexivity. }
  split; [now rewrite Hserve|]. split.
  - intros w2. rewrite !Hserve. simpl.
    destruct e as [|f], (method req);
      unfold Index.favicon, Index.get_avatar, send_from_directory, abort, ret;
      split_cases; reflexivity.
  - intros n Hs Hc. rewrite Hserve. simpl.
    now destruct (HookFacts.hook_miss w n Hs Hc) as (-> & _).
Qed.

(** ** The session and the guards *)

Module SessionFacts.
Section Session.
Context {P : Platform}.

(** What [login] can leave in the session. *)
Lemma login_session (clock : datetime) (req : request) (w : world) :
  session (snd (login clock req w)) = session w
  \/ exists u, In u (users w) /\ user_status u <> 0%Z
               /\ session (snd (login clock req w))
                  = {[ "user_name" := user_name u ]}.
Proof.
  destruct req as [m body]. destruct m.
  - destruct (session w !! "user_name") as [n|] eqn:Hs;
      [|left; run_views; now rewrite Hs].
    destruct (select_row n w) as [u|] eqn:Hsel;
      [|left; run_views; rewrite Hs; simpl; now rewrite Hsel].
    destruct (Z.eq_dec (user_status u) 0) as [Hst|Hst].
    + left. run_views. rewrite Hs. simpl. rewrite Hsel. simpl.
      now rewrite Hst.
    + right. exists u.
      destruct (UsersFacts.where_user_name_matches _ _ _ _ Hsel) as [Hin _].
      rewrite (LoginFacts.login_get_ok clock body w n u Hs Hsel Hst). auto.
  - destruct body as [data|]; [|left; reflexivity].
    destruct (data !! "userName") as [n|] eqn:Hn;
      [|left; run_views; now rewrite Hn].
    destruct (select_row n w) as [u|] eqn:Hsel;
      [|left; run_views; rewrite Hn; simpl; now rewrite Hsel].
    destruct (data !! "password") as [pw|] eqn:Hpw;
      [|left; run_views; rewrite Hn; simpl; rewrite Hsel; simpl;
        now rewrite Hpw].
    destruct (check_password_hash (password u) pw) eqn:Hck;
      [|left; run_views; rewrite Hn; simpl; rewrite Hsel; simpl;
        rewrite Hpw; simpl; now rewrite Hck].
    destruct (Z.eq_dec (user_status u) 0) as [Hst|Hst].
    + left. run_views. rewrite Hn. simpl. rewrite Hsel. simpl.
      rewrite Hpw. simpl. rewrite Hck. simpl. now rewrite Hst.
    + right. exists u.
      destruct (UsersFacts.where_user_name_matches _ _ _ _ Hsel) as [Hin _].
      rewrite (LoginFacts.login_post_ok clock w data n pw u
                 Hn Hpw Hsel Hst Hck). auto.
Qed.

End Session.
End SessionFacts.

(** X18: after any request the session is what it was, or empty, or the
    single claim [user_name] holding the stored name of a row of the table
    whose status is not 0: no request puts a submitted string, a banned
    user or a second key into the session. *)
Theorem session_after_request {P : Platform} (clock : datetime)
    (e : endpoint) (req : request) (w : world) :
  let w' := snd (serve clock e req w) in
  session w' = session w
  \/ session w' = ∅
  \/ exists u, In u (users w) /\ user_status u <> 0%Z
               /\ session w' = {[ "user_name" := user_name u ]}.
Proof.
  intros w'. subst w'. rewrite ServeFacts.serve_after_hook.
  destruct (HookFacts.hook_frame w) as (Fs & Fu & _).
  rewrite <- Fs, <- Fu. generalize (before_request w). intros w0.
  destruct e as [| |f].
  - destruct (SessionFacts.login_session clock req w0) as [Hsame | Hnew];
      auto.
  - destruct (method req); [|auto].
    run_views. destruct (g_user w0); simpl; auto.
  - destruct (method req); [|auto].
    left. now rewrite FrameFacts.get_avatar_world.
Qed.

(** X19: [super_user_required] is [login_required] with one more
    refusal: it either answers 403 leaving the world untouched, or does
    exactly what [login_required] does, and the latter only for a loaded
    user of type 1. *)
Theorem super_user_refines_login_required {P : Platform} {K : Type}
    (view : K -> M response) (kwargs : K) (w : world) :
  super_user_required view kwargs w = (Abort 403, w)
  \/ (super_user_required view kwargs w = login_required view kwargs w
      /\ exists name, g_user w = Some (name, 1%Z)).
Proof.
  destruct (g_user w) as [[name t]|] eqn:Hg.
  - destruct (Z.eq_dec t 1) as [->|Ht].
    + right. split; [|eauto].
      run_views. now repeat (rewrite Hg; simpl).
    + left. run_views. repeat (rewrite Hg; simpl).
      destruct (Z.eqb_spec t 1); [contradiction | reflexivity].
  - left. run_views. now rewrite Hg.
Qed.

(** ** The vehicle model *)

(** X20: [Vehicle] maps table [yutong_vehicle1] with 22 columns whose
    names are pairwise distinct, so each is found under its own name.
    Total voltage and current are DECIMAL(10, 2), state of charge is
    DECIMAL(5, 2), the highest and lowest cell voltage are DECIMAL(10, 6),
    the cumulative energies are DECIMAL(10, 2); every column that is
    neither a decimal, a string nor the timestamp is INTEGER.  [id] is the
    only primary key and [timestamp] the only indexed column. *)
Theorem vehicle_columns_declared :
  Vehicle.__tablename__ = "yutong_vehicle1"
  /\ List.length Vehicle.columns = 22%nat
  /\ NoDup (List.map Vehicle.name Vehicle.columns)
  /\ (forall c, In c Vehicle.columns ->
        Vehicle.find_column (Vehicle.name c) = Some c)
  /\ List.map Vehicle.type_of ["bty_t_vol"; "bty_t_curr"; "p_t_p"; "r_t_p"]
     = List.repeat (Some (Vehicle.DECIMAL 10 2)) 4
  /\ Vehicle.type_of "battery_soc" = Some (Vehicle.DECIMAL 5 2)
  /\ List.map Vehicle.type_of ["s_b_max_v"; "s_b_min_v"]
     = List.repeat (Some (Vehicle.DECIMAL 10 6)) 2
  /\ List.map Vehicle.type_of
       [ "id"; "s_b_max_t"; "max_t_s_b_num"; "s_b_min_t"; "min_t_s_b_num";
         "max_v_e_core_num"; "min_v_e_core_num"; "total_mileage";
         "bty_sys_rated_capacity"; "bty_sys_rated_consumption"; "met_spd";
         "byt_ma_sys_state" ]
     = List.repeat (Some Vehicle.INTEGER) 12
  /\ List.map Vehicle.name (List.filter Vehicle.primary_key Vehicle.columns)
     = ["id"]
  /\ Vehicle.indexed "timestamp" = Some true
  /\ List.map Vehicle.name (List.filter Vehicle.index Vehicle.columns)
     = ["timestamp"].
Proof.
  split; [reflexivity|]. split; [reflexivity|].
  split.
  { apply (bool_decide_unpack _). vm_compute. reflexivity. }
  split.
  { intros c Hin. simpl in Hin.
    repeat (destruct Hin as [<- | Hin]; [reflexivity|]). destruct Hin. }
  repeat (split; [reflexivity|]). reflexivity.
Qed.
